(** * eBay listing checker: a shallow embedding of [main.py]

    The program reads two CSV exports (orders and listings), normalises the
    item numbers and the dates, and computes the items sold in the last sixty
    days and the listed items that are old enough, still available and not
    sold.  The development follows the source function by function:

    - Python values, exceptions and the Streamlit state ([Py], [St]);
    - [float(...)] and ['{:.0f}'.format(...)] on binary64 ([PyFloat64]);
    - the few pandas operations the program uses ([Pandas]);
    - [read_csv_filtered], [format_item_number], [process_ebay_data] and the
      button handler of the script ([Main]);
    - the properties of the specification. *)

From Stdlib Require Import ZArith String Ascii List Bool Lia.
From Stdlib Require Import SpecFloat DecimalString DecimalN.
From stdpp Require Import base option list strings gmap countable.

Local Open Scope string_scope.
Local Open Scope list_scope.
Local Open Scope Z_scope.

(** ** Python values and exceptions *)

Module Py.

(** The cell values that can occur in the two data frames: what
    [pd.read_csv] produces (strings, integers, floats with NaN as the missing
    marker) and what [pd.to_datetime] produces (timestamps and NaT).  A
    timestamp is a count of microseconds on the naive local time line, the
    resolution of [datetime.now()]. *)
Inductive pyval : Type :=
| PyNone
| PyStr (s : string)
| PyInt (z : Z)
| PyFloat (f : spec_float)
| PyTimestamp (t : Z)
| PyNaT.

Inductive exn_kind : Type :=
| ValueError | TypeError | KeyError | OverflowError | ReadError.

(** An exception with the text [str(e)] gives. *)
Record exn : Type := Exn { exn_kind_of : exn_kind; exn_msg : string }.

Inductive result (A : Type) : Type :=
| Ok (a : A)
| Raise (e : exn).
Arguments Ok {A} a.
Arguments Raise {A} e.

#[global] Instance result_ret : MRet result := fun A a => Ok a.
#[global] Instance result_bind : MBind result := fun A B k m =>
  match m with
  | Ok a => k a
  | Raise e => Raise e
  end.

(** [[f(x) for x in l]] for an [f] that may raise: the first exception wins. *)
Fixpoint map_result {A B : Type} (f : A -> result B) (l : list A) : result (list B) :=
  match l with
  | [] => Ok []
  | x :: l' => y ← f x; ys ← map_result f l'; Ok (y :: ys)
  end.

#[global] Instance spec_float_eq_dec : EqDecision spec_float.
Proof. solve_decision. Defined.

#[global] Instance pyval_eq_dec : EqDecision pyval.
Proof. solve_decision. Defined.

Definition pyval_code (v : pyval) : () + string + Z + (bool + bool + () + bool * positive * Z) + Z + () :=
  match v with
  | PyNone => inl (inl (inl (inl (inl ()))))
  | PyStr s => inl (inl (inl (inl (inr s))))
  | PyInt z => inl (inl (inl (inr z)))
  | PyFloat (S754_zero b) => inl (inl (inr (inl (inl (inl b)))))
  | PyFloat (S754_infinity b) => inl (inl (inr (inl (inl (inr b)))))
  | PyFloat S754_nan => inl (inl (inr (inl (inr ()))))
  | PyFloat (S754_finite b m e) => inl (inl (inr (inr (b, m, e))))
  | PyTimestamp t => inl (inr t)
  | PyNaT => inr ()
  end.

Definition pyval_decode (c : () + string + Z + (bool + bool + () + bool * positive * Z) + Z + ()) : pyval :=
  match c with
  | inl (inl (inl (inl (inl ())))) => PyNone
  | inl (inl (inl (inl (inr s)))) => PyStr s
  | inl (inl (inl (inr z))) => PyInt z
  | inl (inl (inr (inl (inl (inl b))))) => PyFloat (S754_zero b)
  | inl (inl (inr (inl (inl (inr b))))) => PyFloat (S754_infinity b)
  | inl (inl (inr (inl (inr ())))) => PyFloat S754_nan
  | inl (inl (inr (inr (b, m, e)))) => PyFloat (S754_finite b m e)
  | inl (inr t) => PyTimestamp t
  | inr () => PyNaT
  end.

#[global] Instance pyval_countable : Countable pyval.
Proof.
  apply (inj_countable' pyval_code pyval_decode).
  intros [| | |[]| |]; reflexivity.
Defined.

End Py.
Export Py.

(** ** Binary64: [float(...)] and ['{:.0f}'.format(...)] *)

Module PyFloat64.

Definition prec : Z := 53.
Definition emax : Z := 1024.

(** The double nearest to the integer [z], ties to even. *)
Definition float_of_Z (z : Z) : spec_float := binary_normalize prec emax z 0 false.

(** The double nearest to [m * 10^e], ties to even, as CPython's correctly
    rounded [strtod] gives it.  For a negative [e] the quotient keeps more
    than [prec] bits and the remainder is handed over as a rounding
    location. *)
Definition float_of_decimal (neg : bool) (m : N) (e : Z) : spec_float :=
  match m with
  | N0 => S754_zero neg
  | Npos p =>
      if 0 <=? e then
        match Zpos p * 10 ^ e with
        | Zpos q => binary_round prec emax neg q 0
        | _ => S754_zero neg
        end
      else
        let d := 10 ^ (- e) in
        let sh := 64 + 4 * (- e) in
        let n := Zpos p * 2 ^ sh in
        let q := n / d in
        let r := n mod d in
        let l := if r =? 0 then loc_Exact else loc_Inexact (Z.compare (2 * r) d) in
        binary_round_aux prec emax neg q (- sh) l
  end.

(** *** The text of a float: [float(s)] for a string *)

Definition is_space (c : ascii) : bool :=
  let n := nat_of_ascii c in
  (Nat.eqb n 32 || (Nat.leb 9 n && Nat.leb n 13))%bool.

Definition is_digit (c : ascii) : bool :=
  let n := nat_of_ascii c in (Nat.leb 48 n && Nat.leb n 57)%bool.

Definition digit_value (c : ascii) : N := N.of_nat (nat_of_ascii c - 48).

Definition is_char (c d : ascii) : bool := Ascii.eqb c d.

Fixpoint lstrip (l : list ascii) : list ascii :=
  match l with
  | c :: l' => if is_space c then lstrip l' else l
  | [] => []
  end.

Definition strip (l : list ascii) : list ascii := rev (lstrip (rev (lstrip l))).

(** An underscore may only stand between two digits. *)
Fixpoint underscores_ok (prev : ascii) (l : list ascii) : bool :=
  match l with
  | [] => negb (is_char prev "_")
  | c :: l' =>
      (if is_char c "_" then is_digit prev
       else (negb (is_char prev "_") || is_digit c))
      && underscores_ok c l'
  end%bool.

Definition remove_underscores (l : list ascii) : list ascii :=
  List.filter (fun c => negb (is_char c "_")) l.

Fixpoint span_digits (l : list ascii) : list ascii * list ascii :=
  match l with
  | c :: l' =>
      if is_digit c then let '(ds, rest) := span_digits l' in (c :: ds, rest)
      else ([], l)
  | [] => ([], [])
  end.

Definition digits_value (ds : list ascii) : N :=
  fold_left (fun acc c => acc * 10 + digit_value c)%N ds 0%N.

Definition split_sign (l : list ascii) : bool * list ascii :=
  match l with
  | c :: l' =>
      if is_char c "-" then (true, l')
      else if is_char c "+" then (false, l')
      else (false, l)
  | [] => (false, [])
  end.

Definition to_lower (c : ascii) : ascii :=
  let n := nat_of_ascii c in
  if (Nat.leb 65 n && Nat.leb n 90)%bool then ascii_of_nat (n + 32) else c.

Definition lower_string (l : list ascii) : string :=
  string_of_list_ascii (List.map to_lower l).

(** The exponent part: nothing, or [e]/[E], an optional sign and at least one
    digit, up to the end of the text. *)
Definition parse_exponent (l : list ascii) : option Z :=
  match l with
  | [] => Some 0
  | c :: l' =>
      if is_char (to_lower c) "e" then
        let '(neg, l'') := split_sign l' in
        let '(ds, rest) := span_digits l'' in
        match ds, rest with
        | _ :: _, [] =>
            let x := Z.of_N (digits_value ds) in
            Some (if neg : bool then - x else x)
        | _, _ => None
        end
      else None
  end.

(** A decimal numeral: digits, an optional point and digits (one digit at
    least in all), and the exponent part. *)
Definition parse_decimal (neg : bool) (l : list ascii) : option spec_float :=
  let '(ip, rest) := span_digits l in
  let '(fp, rest') :=
    match rest with
    | c :: r => if is_char c "." then span_digits r else ([], rest)
    | [] => ([], [])
    end in
  match ip ++ fp with
  | [] => None
  | _ :: _ =>
      match parse_exponent rest' with
      | Some x =>
          Some (float_of_decimal neg (digits_value (ip ++ fp))
                                 (x - Z.of_nat (List.length fp)))
      | None => None
      end
  end.

(** The text of a float, as [float] reads it: blanks stripped at both ends,
    underscores between digits, a sign, then [inf], [infinity] or [nan] in
    any case, or a decimal numeral.  The text is taken byte by byte: the
    digits and blanks outside ASCII that Python also accepts are not
    modelled. *)
Definition parse_float (l : list ascii) : option spec_float :=
  let body := strip l in
  if underscores_ok "000" body then
    let '(neg, rest) := split_sign (remove_underscores body) in
    let w := lower_string rest in
    if String.eqb w "inf" || String.eqb w "infinity" then Some (S754_infinity neg)
    else if String.eqb w "nan" then Some S754_nan
    else parse_decimal neg rest
  else None.

(** [float(s)]: a [ValueError] when the text is not a float.  The message
    quotes the text in apostrophes; Python's [repr] escapes are not
    modelled. *)
Definition float_of_string (s : string) : result spec_float :=
  match parse_float (list_ascii_of_string s) with
  | Some f => Ok f
  | None =>
      Raise (Exn ValueError ("could not convert string to float: '" +:+ s +:+ "'"))
  end.

(** *** ['{:.0f}'.format(x)] *)

(** The integer nearest to [m * 2^e], ties to even. *)
Definition round_half_even (m : positive) (e : Z) : N :=
  if 0 <=? e then Z.to_N (Zpos m * 2 ^ e)
  else
    let d := 2 ^ (- e) in
    let q := Zpos m / d in
    let r := Zpos m mod d in
    Z.to_N (match Z.compare (2 * r) d with
            | Lt => q
            | Eq => if Z.even q then q else q + 1
            | Gt => q + 1
            end).

Definition decimal_of_N (n : N) : string := NilZero.string_of_uint (N.to_uint n).

Definition sign_string (neg : bool) : string := if neg then "-" else EmptyString.

Definition format_0f (x : spec_float) : string :=
  match x with
  | S754_nan => "nan"
  | S754_infinity neg => sign_string neg +:+ "inf"
  | S754_zero neg => sign_string neg +:+ "0"
  | S754_finite neg m e => sign_string neg +:+ decimal_of_N (round_half_even m e)
  end.

End PyFloat64.
Export PyFloat64.

(** ** The pandas operations the program uses *)

Module Pandas.

(** A row maps column labels to cells; a frame lists its column labels and
    its rows in file order. *)
Record DataFrame : Type := mkDataFrame {
  columns : list string;
  rows : list (gmap string pyval)
}.

(** [row[c]] *)
Definition row_get (r : gmap string pyval) (c : string) : result pyval :=
  match r !! c with
  | Some v => Ok v
  | None => Raise (Exn KeyError c)
  end.

(** [df[c]]: the cells of column [c], top to bottom. *)
Definition getcol (df : DataFrame) (c : string) : result (list pyval) :=
  if bool_decide (c ∈ columns df) then map_result (fun r => row_get r c) (rows df)
  else Raise (Exn KeyError c).

(** [df[c] = vals]: replaces the column, or adds it as the last one. *)
Definition setcol (df : DataFrame) (c : string) (vals : list pyval) : result DataFrame :=
  if bool_decide (length vals = length (rows df)) then
    Ok {| columns := if bool_decide (c ∈ columns df) then columns df else columns df ++ [c];
          rows := zip_with (fun r v => <[c := v]> r) (rows df) vals |}
  else Raise (Exn ValueError "Length of values does not match length of index").

(** [l[mask]]: the entries whose mask is [True], in order. *)
Fixpoint boolean_index {A : Type} (l : list A) (mask : list bool) : list A :=
  match l, mask with
  | x :: l', b :: mask' =>
      if b then x :: boolean_index l' mask' else boolean_index l' mask'
  | _, _ => []
  end.

(** [pd.isna(v)] *)
Definition isna (v : pyval) : bool :=
  match v with
  | PyNone | PyNaT | PyFloat S754_nan => true
  | _ => false
  end.

(** [df.dropna(subset=[c])] *)
Definition dropna (df : DataFrame) (c : string) : result DataFrame :=
  col ← getcol df c;
  Ok {| columns := columns df;
        rows := boolean_index (rows df) (List.map (fun v => negb (isna v)) col) |}.

(** [pd.DataFrame(vals, columns=[c])] *)
Definition DataFrame_of_list (vals : list pyval) (c : string) : DataFrame :=
  {| columns := [c]; rows := List.map (fun v => {[ c := v ]}) vals |}.

(** The cells of column [c] that are there: total, for stating properties of
    a result frame. *)
Definition column_values (df : DataFrame) (c : string) : list pyval :=
  omap (fun r : gmap string pyval => r !! c) (rows df).

(** [v > when] and [v < when] for a [datetime] [when]: NaT compares false
    with everything, a cell that is no date is a [TypeError]. *)
Definition gt_datetime (v : pyval) (when : Z) : result bool :=
  match v with
  | PyTimestamp t => Ok (when <? t)
  | PyNaT => Ok false
  | _ => Raise (Exn TypeError "'>' not supported between these operands")
  end.

Definition lt_datetime (v : pyval) (when : Z) : result bool :=
  match v with
  | PyTimestamp t => Ok (t <? when)
  | PyNaT => Ok false
  | _ => Raise (Exn TypeError "'<' not supported between these operands")
  end.

(** [v > 0] *)
Definition gt_zero (v : pyval) : result bool :=
  match v with
  | PyInt z => Ok (0 <? z)
  | PyFloat f => Ok (SFltb (S754_zero false) f)
  | _ => Raise (Exn TypeError "'>' not supported between these operands")
  end.

(** [bool(v)] *)
Definition truthy (v : pyval) : bool :=
  match v with
  | PyNone => false
  | PyStr s => negb (String.eqb s EmptyString)
  | PyInt z => negb (z =? 0)
  | PyFloat (S754_zero _) => false
  | PyFloat _ => true
  | PyTimestamp _ | PyNaT => true
  end.

(** [float(v)] *)
Definition py_float (v : pyval) : result spec_float :=
  match v with
  | PyStr s => float_of_string s
  | PyFloat f => Ok f
  | PyInt z =>
      match float_of_Z z with
      | S754_infinity _ => Raise (Exn OverflowError "int too large to convert to float")
      | f => Ok f
      end
  | _ => Raise (Exn TypeError "float() argument must be a string or a real number")
  end.

(** [timedelta(days=d)], in microseconds. *)
Definition timedelta_days (d : Z) : Z := d * 86400 * 1000000.

End Pandas.
Export Pandas.

(** ** Streamlit: the error messages shown and the session state *)

Module St.

Record state : Type := mkState {
  errors : list string;
  session_state : gmap string (option DataFrame)
}.

(** A computation of the script: it may raise, and it leaves a state behind
    either way. *)
Definition M (A : Type) : Type := state -> result A * state.

#[global] Instance M_ret : MRet M := fun A a s => (Ok a, s).
#[global] Instance M_bind : MBind M := fun A B k m s =>
  match m s with
  | (Ok a, s') => k a s'
  | (Raise e, s') => (Raise e, s')
  end.

Definition lift {A : Type} (r : result A) : M A := fun s => (r, s).

(** [try: body except Exception as e: handler(e)] *)
Definition try_except {A : Type} (body : M A) (handler : exn -> M A) : M A := fun s =>
  match body s with
  | (Ok a, s') => (Ok a, s')
  | (Raise e, s') => handler e s'
  end.

Definition add_error (s : state) (msg : string) : state :=
  {| errors := errors s ++ [msg]; session_state := session_state s |}.

(** [st.error(msg)] *)
Definition error (msg : string) : M () := fun s => (Ok (), add_error s msg).

(** [st.session_state.k = v] *)
Definition session_set (k : string) (v : option DataFrame) : M () := fun s =>
  (Ok (), {| errors := errors s; session_state := <[k := v]> (session_state s) |}).

(** [if k not in st.session_state: st.session_state.k = None] *)
Definition session_init (k : string) : M () := fun s =>
  match session_state s !! k with
  | Some _ => (Ok (), s)
  | None => session_set k None s
  end.

End St.

(** ** The program *)

Module Main.
Import St.

Inductive dtype : Type := dtype_str.

(** The records of the data model: an order with its normalised item number
    and parsed sale date, a listing with its normalised item number, its
    quantity cell and its parsed start date.  [None] is a date that did not
    parse. *)
Record order_record : Type := mkOrder {
  o_item : string;
  o_sale_date : option Z
}.

Record listing_record : Type := mkListing {
  l_item : string;
  l_available_quantity : pyval;
  l_start_date : option Z
}.

(** An order is recent when its sale date is there and after the cutoff. *)
Definition is_recent (cutoff : Z) (o : order_record) : bool :=
  match o_sale_date o with
  | Some t => cutoff <? t
  | None => false
  end.

(** The Sold set of the specification: the distinct item numbers of the
    recent orders. *)
Definition sold_set (cutoff : Z) (orders : list order_record) : gset pyval :=
  list_to_set (List.map (fun o => PyStr (o_item o)) (List.filter (is_recent cutoff) orders)).

Definition positive_quantity (q : pyval) : bool :=
  match gt_zero q with
  | Ok true => true
  | _ => false
  end.

Definition started_before (cutoff : Z) (d : option Z) : bool :=
  match d with
  | Some t => t <? cutoff
  | None => false
  end.

(** A listing qualifies as unsold when its item is not in the Sold set, its
    quantity is positive and it started before the cutoff. *)
Definition qualifies (cutoff : Z) (sold : gset pyval) (l : listing_record) : bool :=
  bool_decide (PyStr (l_item l) ∉ sold)
  && positive_quantity (l_available_quantity l)
  && started_before cutoff (l_start_date l).

(** The Unsold sequence of the specification: the item numbers of the
    qualifying listings, in file order. *)
Definition unsold_seq (cutoff : Z) (sold : gset pyval) (listings : list listing_record)
    : list pyval :=
  List.map (fun l => PyStr (l_item l)) (List.filter (qualifies cutoff sold) listings).

(** The cell [pd.to_datetime] leaves for a date: a timestamp, or NaT. *)
Definition timestamp_cell (d : option Z) : pyval :=
  match d with
  | Some t => PyTimestamp t
  | None => PyNaT
  end.

Definition has_sale_date (o : order_record) : bool :=
  match o_sale_date o with
  | Some _ => true
  | None => false
  end.

(** A row of a prepared frame holds a record when its cells are the fields
    of the record. *)
Definition holds_order (r : gmap string pyval) (o : order_record) : Prop :=
  r !! "Item number" = Some (PyStr (o_item o)) /\
  r !! "Sale date" = Some (timestamp_cell (o_sale_date o)).

Definition holds_listing (r : gmap string pyval) (l : listing_record) : Prop :=
  r !! "Item number" = Some (PyStr (l_item l)) /\
  r !! "Available quantity" = Some (l_available_quantity l) /\
  r !! "Start date" = Some (timestamp_cell (l_start_date l)).

(** Wherever the loop compares a quantity with zero, that is for every
    listing whose item is not sold, the quantity is a number. *)
Definition comparable_quantities (sold : gset pyval) (listings : list listing_record)
    : bool :=
  forallb (fun l => bool_decide (PyStr (l_item l) ∈ sold)
                    || match gt_zero (l_available_quantity l) with
                       | Ok _ => true
                       | Raise _ => false
                       end) listings.



(** The value a session key holds, [None] when the key is not there. *)
Definition stored (k : string) (s : St.state) : option DataFrame :=
  default None (St.session_state s !! k).

(** A quantity cell that is zero, as an integer or as a float. *)
Definition zero_quantity (q : pyval) : bool :=
  match q with
  | PyInt 0 => true
  | PyFloat (S754_zero _) => true
  | _ => false
  end.

(** A text made of an optional minus sign and one decimal digit at least. *)
Definition is_integer_string (s : string) : bool :=
  match list_ascii_of_string s with
  | c :: l =>
      if is_char c "-" then
        match l with
        | [] => false
        | _ :: _ => forallb is_digit l
        end
      else forallb is_digit (c :: l)
  | [] => false
  end.

Definition has_decimal_point (s : string) : bool :=
  existsb (fun c => is_char c ".") (list_ascii_of_string s).

Definition is_finite (x : spec_float) : bool :=
  match x with
  | S754_zero _ | S754_finite _ _ _ => true
  | _ => false
  end.

(** [needle in text] *)
Definition names (text needle : string) : Prop :=
  exists pre post : string, text = pre +:+ needle +:+ post.

(** [[col for col in expected_columns if col not in df.columns]] *)
Definition missing_columns (expected_columns : list string) (df : DataFrame) : list string :=
  List.filter (fun col => negb (bool_decide (col ∈ columns df))) expected_columns.

Section Program.

(** The uploaded files, [pd.read_csv] with the arguments the program passes
    ([dtype], [delimiter], [skiprows]; the encoding is always UTF-8) and
    [pd.to_datetime(col, errors='coerce')], where [None] stands for NaT, are
    the library's: the program is modelled over any of them. *)
Variable file : Type.
Variable pd_read_csv :
  file -> list (string * dtype) -> string -> option nat -> result DataFrame.
Variable pd_to_datetime : list pyval -> list (option Z).

Definition read_csv_filtered (f : file) (expected_columns : list string)
    (dt : list (string * dtype)) (delimiter : string) (skiprows : option nat)
    : M (option DataFrame) :=
  try_except
    (df ← lift (pd_read_csv f dt delimiter skiprows);
     match missing_columns expected_columns df with
     | (_ :: _) as missing =>
         _ ← error ("Missing expected columns: " +:+ String.concat ", " missing);
         mret None
     | [] => mret (Some df)
     end)
    (fun e =>
       _ ← error ("Error reading the CSV file: " +:+ exn_msg e);
       mret None).

Definition format_item_number (item_number : pyval) : result string :=
  if truthy item_number then
    x ← py_float item_number; Ok (format_0f x)
  else Ok EmptyString.

(** [df[c] = df[c].apply(format_item_number)] *)
Definition apply_format_item_number (df : DataFrame) (c : string) : result DataFrame :=
  col ← getcol df c;
  items ← map_result format_item_number col;
  setcol df c (List.map PyStr items).

(** [df[c] = pd.to_datetime(df[c], errors='coerce')] *)
Definition apply_to_datetime (df : DataFrame) (c : string) : result DataFrame :=
  col ← getcol df c;
  setcol df c (List.map timestamp_cell (pd_to_datetime col)).

(** [df[df[c] > when]] *)
Definition select_after (df : DataFrame) (c : string) (when : Z) : result DataFrame :=
  col ← getcol df c;
  mask ← map_result (fun v => gt_datetime v when) col;
  Ok {| columns := columns df; rows := boolean_index (rows df) mask |}.

(** The order records of a frame as [pd.read_csv] returned it: the item
    numbers normalised, the sale dates parsed. *)
Definition order_records (df : DataFrame) : result (list order_record) :=
  raw ← getcol df "Item number";
  items ← map_result format_item_number raw;
  dates ← getcol df "Sale date";
  let parsed := pd_to_datetime dates in
  if bool_decide (length parsed = length dates) then Ok (zip_with mkOrder items parsed)
  else Raise (Exn ValueError "Length of values does not match length of index").

(** The listing records of a frame as [pd.read_csv] returned it. *)
Definition listing_records (df : DataFrame) : result (list listing_record) :=
  raw ← getcol df "Item number";
  items ← map_result format_item_number raw;
  quantities ← getcol df "Available quantity";
  dates ← getcol df "Start date";
  let parsed := pd_to_datetime dates in
  if bool_decide (length parsed = length dates) then
    Ok (zip_with (fun iq d => mkListing iq.1 iq.2 d) (zip items quantities) parsed)
  else Raise (Exn ValueError "Length of values does not match length of index").

(** The loop over [listing_data.iterrows()], with the list it appends to. *)
Fixpoint unsold_loop (sold_items : gset pyval) (sixty_days_ago : Z)
    (rs : list (gmap string pyval)) (unsold_items : list pyval) : result (list pyval) :=
  match rs with
  | [] => Ok unsold_items
  | row :: rs' =>
      item_number ← row_get row "Item number";
      available_quantity ← row_get row "Available quantity";
      start_date ← row_get row "Start date";
      keep ← (if bool_decide (item_number ∉ sold_items) then
                 positive ← gt_zero available_quantity;
                 if positive : bool then lt_datetime start_date sixty_days_ago
                 else Ok false
               else Ok false);
      unsold_loop sold_items sixty_days_ago rs'
        (if keep : bool then unsold_items ++ [item_number] else unsold_items)
  end.

Definition expected_order_columns : list string := ["Item number"; "Sale date"].
Definition expected_listing_columns : list string :=
  ["Item number"; "Start date"; "Available quantity"].

(** [now] is what [datetime.now()] returns when line 43 runs.  [elements]
    stands for [list(sold_items)]: Python lists a set in the order of its
    hash table, which is not modelled, and the properties below only use
    which items the list holds and that it holds each once. *)
Definition process_ebay_data (listing_file order_file : file) (now : Z)
    : M (option DataFrame * option DataFrame) :=
  order_data ← read_csv_filtered order_file expected_order_columns
                  [("Item number", dtype_str)] "," (Some 1%nat);
  match order_data with
  | None => mret (None, None)
  | Some order_data =>
      order_data ← lift (apply_format_item_number order_data "Item number");
      order_data ← lift (apply_to_datetime order_data "Sale date");
      order_data ← lift (dropna order_data "Sale date");
      listing_data ← read_csv_filtered listing_file expected_listing_columns
                        [("Item number", dtype_str)] "," None;
      match listing_data with
      | None => mret (None, None)
      | Some listing_data =>
          listing_data ← lift (apply_format_item_number listing_data "Item number");
          listing_data ← lift (apply_to_datetime listing_data "Start date");
          let sixty_days_ago := now - timedelta_days 60 in
          recent_sales ← lift (select_after order_data "Sale date" sixty_days_ago);
          sold_col ← lift (getcol recent_sales "Item number");
          let sold_items : gset pyval := list_to_set sold_col in
          let sold_df := DataFrame_of_list (elements sold_items) "Sold Item Numbers" in
          unsold_items ← lift (unsold_loop sold_items sixty_days_ago (rows listing_data) []);
          let unsold_df := DataFrame_of_list unsold_items "Unsold Item Numbers" in
          mret (Some sold_df, Some unsold_df)
      end
  end.

(** One run of the script, lines 71 to 87: the two uploaders, the session
    keys, and the button with the processing behind it.  An exception that
    escapes ends the run with the state as it is then. *)
Definition script (listing_file order_file : option file) (clicked : bool) (now : Z)
    : M () :=
  _ ← session_init "sold_df";
  _ ← session_init "unsold_df";
  match listing_file, order_file with
  | Some listing_file, Some order_file =>
      if clicked then
        '(sold_df, unsold_df) ← process_ebay_data listing_file order_file now;
        match sold_df, unsold_df with
        | Some sold_df, Some unsold_df =>
            _ ← session_set "sold_df" (Some sold_df);
            session_set "unsold_df" (Some unsold_df)
        | _, _ => mret ()
        end
      else mret ()
  | _, _ => mret ()
  end.

(** The stages of [process_ebay_data] between the two reads and after them:
    lines 30 to 32, lines 40 and 41, lines 43 to 58. *)
Definition prepare_orders (order_data : DataFrame) : result DataFrame :=
  order_data ← apply_format_item_number order_data "Item number";
  order_data ← apply_to_datetime order_data "Sale date";
  dropna order_data "Sale date".

Definition prepare_listings (listing_data : DataFrame) : result DataFrame :=
  listing_data ← apply_format_item_number listing_data "Item number";
  apply_to_datetime listing_data "Start date".

Definition classify (now : Z) (order_data listing_data : DataFrame)
    : result (DataFrame * DataFrame) :=
  let sixty_days_ago := now - timedelta_days 60 in
  recent_sales ← select_after order_data "Sale date" sixty_days_ago;
  sold_col ← getcol recent_sales "Item number";
  let sold_items : gset pyval := list_to_set sold_col in
  unsold_items ← unsold_loop sold_items sixty_days_ago (rows listing_data) [];
  Ok (DataFrame_of_list (elements sold_items) "Sold Item Numbers",
      DataFrame_of_list unsold_items "Unsold Item Numbers").

Definition read_orders (order_file : file) : result DataFrame :=
  pd_read_csv order_file [("Item number", dtype_str)] "," (Some 1%nat).

Definition read_listings (listing_file : file) : result DataFrame :=
  pd_read_csv listing_file [("Item number", dtype_str)] "," None.

End Program.

(** *** A small instance to run the program on

    A file is the outcome [pd.read_csv] has on it; a date is a string of
    decimal digits, the microseconds since the epoch. *)

Definition toy_file : Type := result DataFrame.

Definition toy_read_csv (f : toy_file) (_ : list (string * dtype)) (_ : string)
    (_ : option nat) : result DataFrame := f.

Definition toy_date (v : pyval) : option Z :=
  match v with
  | PyStr s =>
      match span_digits (list_ascii_of_string s) with
      | (c :: ds, []) => Some (Z.of_N (digits_value (c :: ds)))
      | _ => None
      end
  | _ => None
  end.

Definition toy_to_datetime (col : list pyval) : list (option Z) := List.map toy_date col.

Definition order_row (item date : string) : gmap string pyval :=
  {[ "Item number" := PyStr item; "Sale date" := PyStr date ]}.

Definition listing_row (item date : string) (quantity : pyval) : gmap string pyval :=
  {[ "Item number" := PyStr item; "Start date" := PyStr date;
     "Available quantity" := quantity ]}.

Definition order_frame (rs : list (gmap string pyval)) : toy_file :=
  Ok {| columns := ["Item number"; "Sale date"]; rows := rs |}.

Definition listing_frame (rs : list (gmap string pyval)) : toy_file :=
  Ok {| columns := ["Item number"; "Start date"; "Available quantity"]; rows := rs |}.

Definition day : Z := 86400000000.
Definition second : Z := 1000000.

(** The run is at day 1000; the cutoff is day 940. *)
Definition toy_now : Z := 1000 * day.

Definition empty_state : state := {| errors := []; session_state := ∅ |}.

(** Orders: item 100 sold twice five days before the run, item 300 with a
    date that is no date, item 400 sold at the cutoff, item 500 one second
    after it. *)
Definition toy_order_data : DataFrame :=
  {| columns := ["Item number"; "Sale date"];
     rows := [order_row "100.0" "85968000000000"; order_row "300" "not a date";
              order_row "400" "81216000000000"; order_row "500" "81216001000000";
              order_row "100" "85968000000000"] |}.

(** Listings, all but two started ninety days before the run: item 100,
    item 200 twice, item 300 with nothing left, item 400 started at the
    cutoff, item 600 with a date that is no date. *)
Definition toy_listing_data : DataFrame :=
  {| columns := ["Item number"; "Start date"; "Available quantity"];
     rows := [listing_row "100" "78624000000000" (PyInt 1);
              listing_row "200.0" "78624000000000" (PyInt 1);
              listing_row "300" "78624000000000" (PyInt 0);
              listing_row "200" "78624000000000" (PyInt 3);
              listing_row "400" "81216000000000" (PyInt 2);
              listing_row "600" "n/a" (PyInt 5)] |}.

Definition toy_orders : toy_file := Ok toy_order_data.
Definition toy_listings : toy_file := Ok toy_listing_data.

Definition toy_order_records : list order_record :=
  [mkOrder "100" (Some 85968000000000); mkOrder "300" None;
   mkOrder "400" (Some 81216000000000); mkOrder "500" (Some 81216001000000);
   mkOrder "100" (Some 85968000000000)].

Definition toy_listing_records : list listing_record :=
  [mkListing "100" (PyInt 1) (Some 78624000000000);
   mkListing "200" (PyInt 1) (Some 78624000000000);
   mkListing "300" (PyInt 0) (Some 78624000000000);
   mkListing "200" (PyInt 3) (Some 78624000000000);
   mkListing "400" (PyInt 2) (Some 81216000000000);
   mkListing "600" (PyInt 5) None].

Definition toy_sold_df : DataFrame :=
  DataFrame_of_list [PyStr "500"; PyStr "100"] "Sold Item Numbers".

Definition toy_unsold_df : DataFrame :=
  DataFrame_of_list [PyStr "200"; PyStr "200"] "Unsold Item Numbers".

(** An order file whose only sale is 60 days and 1 second before the run,
    and a listing of the same item. *)
Definition late_order_data : DataFrame :=
  {| columns := ["Item number"; "Sale date"];
     rows := [order_row "100" "81215999000000"] |}.

Definition late_listing_data : DataFrame :=
  {| columns := ["Item number"; "Start date"; "Available quantity"];
     rows := [listing_row "100" "78624000000000" (PyInt 1)] |}.

(** An order file with an item number that is no number, an order file
    without its [Sale date] column, and a listing file without its
    [Start date] column. *)
Definition bad_item_order_data : DataFrame :=
  {| columns := ["Item number"; "Sale date"];
     rows := [order_row "abc" "85968000000000"] |}.

Definition no_sale_date_order_data : DataFrame :=
  {| columns := ["Item number"];
     rows := [{[ "Item number" := PyStr "100" ]}] |}.

Definition no_start_date_listing_data : DataFrame :=
  {| columns := ["Item number"; "Available quantity"];
     rows := [{[ "Item number" := PyStr "100"; "Available quantity" := PyInt 1 ]}] |}.

(** The text of [k] zeros. *)
Definition zeros (k : nat) : string := string_of_list_ascii (repeat "0"%char k).

(** A digit or the decimal point. *)
Definition plain (c : ascii) : bool := is_digit c || is_char c ".".

(** A text of blanks only, the blanks [float] strips. *)
Definition is_blank (s : string) : bool := forallb is_space (list_ascii_of_string s).

(** A quantity cell that is a number strictly above zero. *)
Definition is_positive_number (q : pyval) : bool :=
  match q with
  | PyInt z => 0 <? z
  | PyFloat (S754_finite false _ _) | PyFloat (S754_infinity false) => true
  | _ => false
  end.

(** [sold_df is not None and unsold_df is not None], on what the processing
    step returned (line 85). *)
Definition two_frames (r : result (option DataFrame * option DataFrame)) : bool :=
  match r with
  | Ok (Some _, Some _) => true
  | _ => false
  end.

(** The condition of line 89, under which the two download buttons are
    shown: both session values are there and are not [None]. *)
Definition downloads_offered (s : state) : bool :=
  match stored "sold_df" s, stored "unsold_df" s with
  | Some _, Some _ => true
  | _, _ => false
  end.

(** A file [pd.read_csv] cannot read, and a listing file whose quantities
    were read as texts. *)
Definition unreadable_file : toy_file :=
  Raise (Exn ReadError "No columns to parse from file").



(** A run a hundred days after the first one. *)
Definition toy_later : Z := toy_now + 100 * day.

Definition toy_later_sold_df : DataFrame :=
  DataFrame_of_list [] "Sold Item Numbers".

Definition toy_later_unsold_df : DataFrame :=
  DataFrame_of_list [PyStr "100"; PyStr "200"; PyStr "200"; PyStr "400"]
    "Unsold Item Numbers".

(** The program on the small instance, and the tactic that runs it. *)
Abbreviation toy_process :=
  (process_ebay_data toy_file toy_read_csv toy_to_datetime).

Ltac run := vm_compute; reflexivity.

(** ** Properties *)

(** *** Sequencing computations that may raise *)

Lemma map_result_Ok {A B : Type} (f : A -> result B) (l : list A) (l' : list B) :
  map_result f l = Ok l' <-> Forall2 (fun x y => f x = Ok y) l l'.
Proof.
  revert l'. induction l as [|x l IH]; intros l'; simpl.
  - split.
    + intros [= <-]. constructor.
    + intros H. inversion H. reflexivity.
  - split.
    + destruct (f x) as [y|e] eqn:Ef; [|discriminate]. simpl.
      destruct (map_result f l) as [ys|e] eqn:El; [|discriminate]. simpl.
      intros [= <-]. constructor; [exact Ef|]. apply IH. reflexivity.
    + intros H. inversion H as [|x0 y l0 ys Hy Hys]; subst.
      rewrite Hy. simpl. apply IH in Hys. rewrite Hys. reflexivity.
Qed.

Lemma map_result_length {A B : Type} (f : A -> result B) (l : list A) (l' : list B) :
  map_result f l = Ok l' -> length l' = length l.
Proof. intros H. apply map_result_Ok in H. symmetry. eapply Forall2_length, H. Qed.


(** *** Frames *)

Lemma getcol_Ok (df : DataFrame) (c : string) (col : list pyval) :
  getcol df c = Ok col <->
  c ∈ columns df /\ Forall2 (fun r v => r !! c = Some v) (rows df) col.
Proof.
  unfold getcol. case_bool_decide as Hc.
  - rewrite map_result_Ok. split.
    + intros H. split; [exact Hc|].
      eapply Forall2_impl; [|exact H]. intros r v. unfold row_get.
      destruct (r !! c); [by intros [= ->]|discriminate].
    + intros [_ H]. eapply Forall2_impl; [|exact H]. intros r v Hr.
      unfold row_get. by rewrite Hr.
  - split; [discriminate|]. intros [? _]. contradiction.
Qed.

Lemma getcol_length (df : DataFrame) (c : string) (col : list pyval) :
  getcol df c = Ok col -> length col = length (rows df).
Proof. intros H. apply getcol_Ok in H as [_ H]. symmetry. eapply Forall2_length, H. Qed.

Lemma setcol_Ok (df df' : DataFrame) (c : string) (vals : list pyval) :
  setcol df c vals = Ok df' <->
  length vals = length (rows df) /\
  df' = {| columns := if bool_decide (c ∈ columns df) then columns df else columns df ++ [c];
           rows := zip_with (fun r v => <[c := v]> r) (rows df) vals |}.
Proof.
  unfold setcol. case_bool_decide as Hl.
  - split; [intros [= <-]; by split|]. intros [_ ->]. reflexivity.
  - split; [discriminate|]. intros [? _]. contradiction.
Qed.

(** Writing a column leaves the other columns as they are. *)
Lemma zip_insert_other (c c' : string) (rs : list (gmap string pyval))
    (vals col : list pyval) :
  c <> c' -> length vals = length rs ->
  Forall2 (fun r v => r !! c' = Some v) (zip_with (fun r v => <[c := v]> r) rs vals) col
  <-> Forall2 (fun r v => r !! c' = Some v) rs col.
Proof.
  intros Hne. revert vals col. induction rs as [|r rs IH]; intros vals col Hlen.
  - destruct vals; [|discriminate]. reflexivity.
  - destruct vals as [|v vals]; [discriminate|]. simpl in Hlen. simpl. split.
    + intros H. inversion H as [|r0 w l0 col' Hr Hrest]; subst.
      rewrite lookup_insert_ne in Hr by exact Hne.
      constructor; [exact Hr|]. eapply IH; [|exact Hrest]. lia.
    + intros H. inversion H as [|r0 w l0 col' Hr Hrest]; subst.
      constructor; [by rewrite lookup_insert_ne|]. apply IH; [lia|exact Hrest].
Qed.

Lemma column_values_of_list (vals : list pyval) (c : string) :
  column_values (DataFrame_of_list vals c) c = vals.
Proof.
  unfold column_values, DataFrame_of_list.
  cbn [rows]. induction vals as [|v vals IH]; [reflexivity|].
  cbn [List.map omap list_omap]. rewrite lookup_singleton_eq.
  f_equal. exact IH.
Qed.

(** Selecting by a mask that agrees with a test on related entries is
    filtering the related entries by the test. *)
Lemma boolean_index_Forall2 {A B : Type} (R : A -> B -> Prop) (p : B -> bool)
    (l1 : list A) (l2 : list B) (mask : list bool) :
  Forall2 R l1 l2 -> Forall2 (fun b y => b = p y) mask l2 ->
  Forall2 R (boolean_index l1 mask) (List.filter p l2).
Proof.
  intros H. revert mask. induction H as [|x y l1 l2 Hxy _ IH]; intros mask Hm.
  - inversion Hm. constructor.
  - inversion Hm as [|b y0 mask' l0 Hb Hrest]; subst. simpl.
    destruct (p y); [constructor; [exact Hxy|]|]; by apply IH.
Qed.

(** *** The program, stage by stage *)

Section Properties.

Context (file : Type).
Context (pd_read_csv :
  file -> list (string * dtype) -> string -> option nat -> result DataFrame).
Context (pd_to_datetime : list pyval -> list (option Z)).

Local Abbreviation read_csv_filtered := (read_csv_filtered file pd_read_csv).
Local Abbreviation process_ebay_data := (process_ebay_data file pd_read_csv pd_to_datetime).
Local Abbreviation script := (script file pd_read_csv pd_to_datetime).
Local Abbreviation read_orders := (read_orders file pd_read_csv).
Local Abbreviation read_listings := (read_listings file pd_read_csv).
Local Abbreviation prepare_orders := (prepare_orders pd_to_datetime).
Local Abbreviation prepare_listings := (prepare_listings pd_to_datetime).
Local Abbreviation apply_to_datetime := (apply_to_datetime pd_to_datetime).
Local Abbreviation order_records := (order_records pd_to_datetime).
Local Abbreviation listing_records := (listing_records pd_to_datetime).

Lemma read_csv_filtered_unfold (f : file) (expected : list string)
    (dt : list (string * dtype)) (delimiter : string) (skiprows : option nat) (s : state) :
  read_csv_filtered f expected dt delimiter skiprows s =
  match pd_read_csv f dt delimiter skiprows with
  | Raise e => (Ok None, add_error s ("Error reading the CSV file: " +:+ exn_msg e))
  | Ok df =>
      match missing_columns expected df with
      | (_ :: _) as missing =>
          (Ok None,
           add_error s ("Missing expected columns: " +:+ String.concat ", " missing))
      | [] => (Ok (Some df), s)
      end
  end.
Proof.
  unfold Main.read_csv_filtered, try_except, lift, mbind, M_bind.
  destruct (pd_read_csv f dt delimiter skiprows) as [df|e]; [|reflexivity].
  destruct (missing_columns expected df); reflexivity.
Qed.

(** The program as a cascade over its two reads and its pure stages. *)
Lemma process_ebay_data_unfold (listing_file order_file : file) (now : Z) (s : state) :
  process_ebay_data listing_file order_file now s =
  match read_orders order_file with
  | Raise e =>
      (Ok (None, None), add_error s ("Error reading the CSV file: " +:+ exn_msg e))
  | Ok odf =>
      match missing_columns expected_order_columns odf with
      | (_ :: _) as missing =>
          (Ok (None, None),
           add_error s ("Missing expected columns: " +:+ String.concat ", " missing))
      | [] =>
          match prepare_orders odf with
          | Raise e => (Raise e, s)
          | Ok order_data =>
              match read_listings listing_file with
              | Raise e =>
                  (Ok (None, None),
                   add_error s ("Error reading the CSV file: " +:+ exn_msg e))
              | Ok ldf =>
                  match missing_columns expected_listing_columns ldf with
                  | (_ :: _) as missing =>
                      (Ok (None, None),
                       add_error s ("Missing expected columns: "
                                    +:+ String.concat ", " missing))
                  | [] =>
                      match ld ← prepare_listings ldf; classify now order_data ld with
                      | Raise e => (Raise e, s)
                      | Ok (sold_df, unsold_df) => (Ok (Some sold_df, Some unsold_df), s)
                      end
                  end
              end
          end
      end
  end.
Proof.
  unfold Main.process_ebay_data, Main.read_orders, Main.read_listings.
  unfold mbind at 1. unfold M_bind at 1. rewrite read_csv_filtered_unfold.
  destruct (pd_read_csv order_file _ _ _) as [odf|e]; [|reflexivity].
  destruct (missing_columns expected_order_columns odf); [|reflexivity].
  unfold Main.prepare_orders, Main.prepare_listings, classify, lift.
  unfold mbind, M_bind, result_bind, mret, M_ret.
  destruct (apply_format_item_number odf "Item number") as [d1|e]; [|reflexivity].
  destruct (apply_to_datetime d1 "Sale date") as [d2|e]; [|reflexivity].
  destruct (dropna d2 "Sale date") as [order_data|e]; [|reflexivity].
  rewrite read_csv_filtered_unfold.
  destruct (pd_read_csv listing_file _ _ _) as [ldf|e]; [|reflexivity].
  destruct (missing_columns expected_listing_columns ldf); [|reflexivity].
  destruct (apply_format_item_number ldf "Item number") as [l1|e]; [|reflexivity].
  destruct (apply_to_datetime l1 "Start date") as [l2|e]; [|reflexivity].
  destruct (select_after order_data "Sale date" _) as [recent|e]; [|reflexivity].
  destruct (getcol recent "Item number") as [sold_col|e]; [|reflexivity].
  destruct (unsold_loop _ _ _ _) as [unsold_items|e]; reflexivity.
Qed.

Lemma apply_format_item_number_Ok (df df' : DataFrame) (c : string) :
  apply_format_item_number df c = Ok df' <->
  exists (raw : list pyval) (items : list string),
    getcol df c = Ok raw /\ map_result format_item_number raw = Ok items /\
    df' = {| columns := columns df;
             rows := zip_with (fun r v => <[c := v]> r) (rows df) (List.map PyStr items) |}.
Proof.
  unfold apply_format_item_number. split.
  - destruct (getcol df c) as [raw|e] eqn:Hg; [|discriminate]. simpl.
    destruct (map_result format_item_number raw) as [items|e] eqn:Hm; [|discriminate].
    simpl. intros H. apply setcol_Ok in H as [_ ->].
    exists raw, items. do 2 (split; [done|]).
    apply getcol_Ok in Hg as [Hc _]. by rewrite bool_decide_true.
  - intros (raw & items & Hg & Hm & ->). rewrite Hg. simpl. rewrite Hm. simpl.
    apply setcol_Ok. split.
    + rewrite length_map, (map_result_length _ _ _ Hm). exact (getcol_length _ _ _ Hg).
    + apply getcol_Ok in Hg as [Hc _]. by rewrite bool_decide_true.
Qed.

Lemma apply_to_datetime_Ok (df df' : DataFrame) (c : string) :
  apply_to_datetime df c = Ok df' <->
  exists col : list pyval,
    getcol df c = Ok col /\ length (pd_to_datetime col) = length col /\
    df' = {| columns := columns df;
             rows := zip_with (fun r v => <[c := v]> r) (rows df)
                       (List.map timestamp_cell (pd_to_datetime col)) |}.
Proof.
  unfold Main.apply_to_datetime. split.
  - destruct (getcol df c) as [col|e] eqn:Hg; [|discriminate]. simpl.
    intros H. apply setcol_Ok in H as [Hlen ->]. exists col.
    split; [done|]. rewrite length_map in Hlen.
    split; [rewrite Hlen; symmetry; exact (getcol_length _ _ _ Hg)|].
    apply getcol_Ok in Hg as [Hc _]. by rewrite bool_decide_true.
  - intros (col & Hg & Hlen & ->). rewrite Hg. simpl. apply setcol_Ok. split.
    + rewrite length_map, Hlen. exact (getcol_length _ _ _ Hg).
    + apply getcol_Ok in Hg as [Hc _]. by rewrite bool_decide_true.
Qed.

Lemma order_records_Ok (df : DataFrame) (orders : list order_record) :
  order_records df = Ok orders <->
  exists (raw : list pyval) (items : list string) (dates : list pyval),
    getcol df "Item number" = Ok raw /\ map_result format_item_number raw = Ok items /\
    getcol df "Sale date" = Ok dates /\ length (pd_to_datetime dates) = length dates /\
    orders = zip_with mkOrder items (pd_to_datetime dates).
Proof.
  unfold Main.order_records. split.
  - destruct (getcol df "Item number") as [raw|e]; [|discriminate]. simpl.
    destruct (map_result format_item_number raw) as [items|e] eqn:Hm; [|discriminate].
    simpl.
    destruct (getcol df "Sale date") as [dates|e]; [|discriminate]. simpl.
    case_bool_decide as Hlen; [|discriminate]. intros [= <-].
    by exists raw, items, dates.
  - intros (raw & items & dates & Hraw & Hitems & Hdates & Hlen & ->).
    rewrite Hraw. simpl. rewrite Hitems. simpl. rewrite Hdates. simpl.
    by rewrite bool_decide_true.
Qed.

Lemma listing_records_Ok (df : DataFrame) (listings : list listing_record) :
  listing_records df = Ok listings <->
  exists (raw : list pyval) (items : list string) (quantities dates : list pyval),
    getcol df "Item number" = Ok raw /\ map_result format_item_number raw = Ok items /\
    getcol df "Available quantity" = Ok quantities /\
    getcol df "Start date" = Ok dates /\ length (pd_to_datetime dates) = length dates /\
    listings = zip_with (fun iq d => mkListing iq.1 iq.2 d) (zip items quantities)
                 (pd_to_datetime dates).
Proof.
  unfold Main.listing_records. split.
  - destruct (getcol df "Item number") as [raw|e]; [|discriminate]. simpl.
    destruct (map_result format_item_number raw) as [items|e] eqn:Hm; [|discriminate].
    simpl.
    destruct (getcol df "Available quantity") as [quantities|e]; [|discriminate]. simpl.
    destruct (getcol df "Start date") as [dates|e]; [|discriminate]. simpl.
    case_bool_decide as Hlen; [|discriminate]. intros [= <-].
    by exists raw, items, quantities, dates.
  - intros (raw & items & quantities & dates & Hraw & Hitems & Hq & Hdates & Hlen & ->).
    rewrite Hraw. simpl. rewrite Hitems. simpl. rewrite Hq. simpl. rewrite Hdates. simpl.
    by rewrite bool_decide_true.
Qed.

(** The rows after the two column writes hold the zipped records. *)
Lemma rows_hold_orders (rs : list (gmap string pyval)) (items : list string)
    (parsed : list (option Z)) :
  length items = length rs -> length parsed = length rs ->
  Forall2 holds_order
    (zip_with (fun r v => <["Sale date" := v]> r)
       (zip_with (fun r v => <["Item number" := v]> r) rs (List.map PyStr items))
       (List.map timestamp_cell parsed))
    (zip_with mkOrder items parsed).
Proof.
  revert items parsed. induction rs as [|r rs IH]; intros items parsed Hi Hp.
  - destruct items; [|discriminate]. constructor.
  - destruct items as [|i items]; [discriminate|].
    destruct parsed as [|d parsed]; [discriminate|]. simpl in *.
    constructor; [|apply IH; lia]. split; simpl.
    + rewrite lookup_insert_ne by discriminate. apply lookup_insert_eq.
    + apply lookup_insert_eq.
Qed.

Lemma rows_hold_listings (rs : list (gmap string pyval)) (items : list string)
    (quantities : list pyval) (parsed : list (option Z)) :
  Forall2 (fun r v => r !! "Available quantity" = Some v) rs quantities ->
  length items = length rs -> length parsed = length rs ->
  Forall2 holds_listing
    (zip_with (fun r v => <["Start date" := v]> r)
       (zip_with (fun r v => <["Item number" := v]> r) rs (List.map PyStr items))
       (List.map timestamp_cell parsed))
    (zip_with (fun iq d => mkListing iq.1 iq.2 d) (zip items quantities) parsed).
Proof.
  intros Hq. revert items parsed.
  induction Hq as [|r q rs quantities Hr _ IH]; intros items parsed Hi Hp.
  - destruct items; [|discriminate]. constructor.
  - destruct items as [|i items]; [discriminate|].
    destruct parsed as [|d parsed]; [discriminate|]. simpl in *.
    constructor; [|apply IH; lia]. split; [|split]; simpl.
    + rewrite lookup_insert_ne by discriminate. apply lookup_insert_eq.
    + by rewrite !lookup_insert_ne by discriminate.
    + apply lookup_insert_eq.
Qed.

Lemma holds_order_columns (rs : list (gmap string pyval)) (orders : list order_record) :
  Forall2 holds_order rs orders ->
  Forall2 (fun r v => r !! "Item number" = Some v) rs
    (List.map (fun o => PyStr (o_item o)) orders) /\
  Forall2 (fun r v => r !! "Sale date" = Some v) rs
    (List.map (fun o => timestamp_cell (o_sale_date o)) orders).
Proof.
  induction 1 as [|r o rs orders [Hi Hd] _ [IH1 IH2]]; simpl; split; by constructor.
Qed.

Lemma isna_mask (orders : list order_record) :
  Forall2 (fun b o => b = has_sale_date o)
    (List.map (fun v => negb (isna v))
       (List.map (fun o => timestamp_cell (o_sale_date o)) orders))
    orders.
Proof.
  induction orders as [|o orders IH]; simpl; constructor; [|exact IH].
  unfold has_sale_date. by destruct (o_sale_date o).
Qed.

Lemma recent_mask (cutoff : Z) (orders : list order_record) :
  map_result (fun v => gt_datetime v cutoff)
    (List.map (fun o => timestamp_cell (o_sale_date o)) orders)
  = Ok (List.map (is_recent cutoff) orders).
Proof.
  induction orders as [|o orders IH]; simpl; [reflexivity|].
  rewrite IH. unfold is_recent. by destruct (o_sale_date o).
Qed.

Lemma Forall2_map_self {A : Type} (p : A -> bool) (l : list A) :
  Forall2 (fun b x => b = p x) (List.map p l) l.
Proof. induction l; simpl; by constructor. Qed.

Lemma filter_recent_dated (cutoff : Z) (orders : list order_record) :
  List.filter (is_recent cutoff) (List.filter has_sale_date orders)
  = List.filter (is_recent cutoff) orders.
Proof.
  induction orders as [|[i [t|]] orders IH]; simpl; [reflexivity| |exact IH].
  by rewrite IH.
Qed.

(** Lines 30 to 32 on a frame whose records exist: the prepared frame holds
    the records that have a sale date, in order. *)
Lemma prepare_orders_spec (df : DataFrame) (orders : list order_record) :
  order_records df = Ok orders ->
  exists od : DataFrame,
    prepare_orders df = Ok od /\ columns od = columns df /\
    Forall2 holds_order (rows od) (List.filter has_sale_date orders).
Proof.
  intros H. apply order_records_Ok in H as (raw & items & dates & Hraw & Hitems & Hdates & Hlen & ->).
  pose proof (getcol_length _ _ _ Hraw) as Lraw.
  pose proof (getcol_length _ _ _ Hdates) as Ldates.
  pose proof (map_result_length _ _ _ Hitems) as Litems.
  set (rows1 := zip_with (fun r v => <["Item number" := v]> r) (rows df) (List.map PyStr items)).
  set (d1 := {| columns := columns df; rows := rows1 |}).
  assert (H1 : apply_format_item_number df "Item number" = Ok d1).
  { apply apply_format_item_number_Ok. by exists raw, items. }
  assert (Hd1 : getcol d1 "Sale date" = Ok dates).
  { apply getcol_Ok in Hdates as [Hc Hf]. apply getcol_Ok. split; [exact Hc|].
    apply zip_insert_other; [discriminate|rewrite length_map; lia|exact Hf]. }
  set (cells := List.map timestamp_cell (pd_to_datetime dates)).
  set (rows2 := zip_with (fun r v => <["Sale date" := v]> r) rows1 cells).
  set (d2 := {| columns := columns df; rows := rows2 |}).
  assert (H2 : apply_to_datetime d1 "Sale date" = Ok d2).
  { apply apply_to_datetime_Ok. by exists dates. }
  assert (Hrel : Forall2 holds_order rows2 (zip_with mkOrder items (pd_to_datetime dates))).
  { apply rows_hold_orders; lia. }
  assert (Hcol : getcol d2 "Sale date"
                 = Ok (List.map (fun o => timestamp_cell (o_sale_date o))
                         (zip_with mkOrder items (pd_to_datetime dates)))).
  { apply getcol_Ok. split; [by apply getcol_Ok in Hdates as [Hc _]|].
    by apply holds_order_columns in Hrel as [_ Hd]. }
  eexists. unfold Main.prepare_orders. rewrite H1. simpl. rewrite H2. simpl.
  unfold dropna. rewrite Hcol. simpl. split; [reflexivity|]. split; [reflexivity|].
  simpl. apply boolean_index_Forall2; [exact Hrel|apply isna_mask].
Qed.

Lemma prepare_orders_inv (df od : DataFrame) :
  prepare_orders df = Ok od -> exists orders, order_records df = Ok orders.
Proof.
  unfold Main.prepare_orders.
  destruct (apply_format_item_number df "Item number") as [d1|e] eqn:H1; [|discriminate].
  simpl. destruct (apply_to_datetime d1 "Sale date") as [d2|e] eqn:H2; [|discriminate].
  intros _. apply apply_format_item_number_Ok in H1 as (raw & items & Hraw & Hitems & ->).
  apply apply_to_datetime_Ok in H2 as (dates & Hdates & Hlen & _).
  eexists. apply order_records_Ok. exists raw, items, dates.
  do 2 (split; [assumption|]). split; [|by split].
  apply getcol_Ok in Hdates as [Hc Hf]. apply getcol_Ok. split; [exact Hc|].
  simpl in Hf. apply zip_insert_other in Hf; [exact Hf|discriminate|].
  rewrite length_map, (map_result_length _ _ _ Hitems). exact (getcol_length _ _ _ Hraw).
Qed.

(** Lines 40 and 41: the prepared listing frame holds the listing records. *)
Lemma prepare_listings_spec (df : DataFrame) (listings : list listing_record) :
  listing_records df = Ok listings ->
  exists ld : DataFrame,
    prepare_listings df = Ok ld /\ columns ld = columns df /\
    Forall2 holds_listing (rows ld) listings.
Proof.
  intros H.
  apply listing_records_Ok in H
    as (raw & items & quantities & dates & Hraw & Hitems & Hq & Hdates & Hlen & ->).
  pose proof (getcol_length _ _ _ Hraw) as Lraw.
  pose proof (getcol_length _ _ _ Hdates) as Ldates.
  pose proof (map_result_length _ _ _ Hitems) as Litems.
  set (rows1 := zip_with (fun r v => <["Item number" := v]> r) (rows df) (List.map PyStr items)).
  set (d1 := {| columns := columns df; rows := rows1 |}).
  assert (H1 : apply_format_item_number df "Item number" = Ok d1).
  { apply apply_format_item_number_Ok. by exists raw, items. }
  assert (Hd1 : getcol d1 "Start date" = Ok dates).
  { apply getcol_Ok in Hdates as [Hc Hf]. apply getcol_Ok. split; [exact Hc|].
    apply zip_insert_other; [discriminate|rewrite length_map; lia|exact Hf]. }
  eexists. unfold Main.prepare_listings. rewrite H1. simpl.
  split; [apply apply_to_datetime_Ok; by exists dates|]. split; [reflexivity|].
  simpl. apply rows_hold_listings; [|lia|lia].
  by apply getcol_Ok in Hq as [_ Hq].
Qed.

Lemma lt_datetime_cell (cutoff : Z) (d : option Z) :
  lt_datetime (timestamp_cell d) cutoff = Ok (started_before cutoff d).
Proof. by destruct d. Qed.

(** The loop appends the items of the qualifying listings, in order, as long
    as the quantity comparison it evaluates is between numbers. *)
Lemma unsold_loop_spec (sold : gset pyval) (cutoff : Z) (rs : list (gmap string pyval))
    (listings : list listing_record) (acc : list pyval) :
  Forall2 holds_listing rs listings ->
  (forall l, l ∈ listings -> PyStr (l_item l) ∉ sold ->
             exists b, gt_zero (l_available_quantity l) = Ok b) ->
  unsold_loop sold cutoff rs acc = Ok (acc ++ unsold_seq cutoff sold listings).
Proof.
  intros H. revert acc.
  induction H as [|r l rs listings (Hi & Hq & Hd) _ IH]; intros acc Hnum.
  - simpl. by rewrite app_nil_r.
  - assert (Hrest : forall l', l' ∈ listings -> PyStr (l_item l') ∉ sold ->
                               exists b, gt_zero (l_available_quantity l') = Ok b).
    { intros l' Hl'. apply Hnum. by right. }
    cbn [unsold_loop]. unfold row_get. rewrite Hi, Hq, Hd. simpl.
    unfold unsold_seq. cbn [List.filter]. unfold qualifies at 1.
    unfold positive_quantity. case_bool_decide as Hs; simpl.
    + destruct (Hnum l (list_elem_of_here _ _) Hs) as [b Hb]. rewrite Hb. simpl.
      destruct b; simpl.
      * rewrite lt_datetime_cell. simpl.
        destruct (started_before cutoff (l_start_date l)); simpl.
        -- rewrite IH by exact Hrest. unfold unsold_seq. by rewrite <- app_assoc.
        -- by apply IH.
      * by apply IH.
    + by apply IH.
Qed.

Lemma unsold_loop_inv (sold : gset pyval) (cutoff : Z) (rs : list (gmap string pyval))
    (listings : list listing_record) (acc res : list pyval) :
  Forall2 holds_listing rs listings ->
  unsold_loop sold cutoff rs acc = Ok res ->
  forall l, l ∈ listings -> PyStr (l_item l) ∉ sold ->
            exists b, gt_zero (l_available_quantity l) = Ok b.
Proof.
  intros H. revert acc.
  induction H as [|r l rs listings (Hi & Hq & Hd) _ IH]; intros acc Hloop l' Hl' Hs.
  - inversion Hl'.
  - cbn [unsold_loop] in Hloop. unfold row_get in Hloop.
    rewrite Hi, Hq, Hd in Hloop. simpl in Hloop.
    apply elem_of_cons in Hl' as [->|Hl'].
    + rewrite bool_decide_true in Hloop by exact Hs.
      destruct (gt_zero (l_available_quantity l)) as [b|e]; [by exists b|discriminate].
    + destruct (if bool_decide (PyStr (l_item l) ∉ sold) then _ else _) as [keep|e];
        [|discriminate].
      by eapply IH.
Qed.

Lemma unsold_loop_quantities (sold : gset pyval) (cutoff : Z)
    (rs : list (gmap string pyval)) (acc res : list pyval) :
  unsold_loop sold cutoff rs acc = Ok res ->
  exists quantities, Forall2 (fun r v => r !! "Available quantity" = Some v) rs quantities.
Proof.
  revert acc. induction rs as [|r rs IH]; intros acc Hloop.
  - exists []. constructor.
  - cbn [unsold_loop] in Hloop. unfold row_get in Hloop.
    destruct (r !! "Item number") as [i|]; [|discriminate]. simpl in Hloop.
    destruct (r !! "Available quantity") as [q|] eqn:Hq; [|discriminate]. simpl in Hloop.
    destruct (r !! "Start date") as [d|]; [|discriminate]. simpl in Hloop.
    destruct (if bool_decide (i ∉ sold) then _ else _) as [keep|e]; [|discriminate].
    simpl in Hloop. apply IH in Hloop as [quantities Hqs].
    exists (q :: quantities). by constructor.
Qed.

Lemma prepare_listings_inv (df ld : DataFrame) (sold : gset pyval) (cutoff : Z)
    (acc res : list pyval) :
  "Available quantity" ∈ columns df ->
  prepare_listings df = Ok ld ->
  unsold_loop sold cutoff (rows ld) acc = Ok res ->
  exists listings, listing_records df = Ok listings.
Proof.
  intros Hc. unfold Main.prepare_listings.
  destruct (apply_format_item_number df "Item number") as [d1|e] eqn:H1; [|discriminate].
  simpl. intros H2 Hloop.
  apply apply_format_item_number_Ok in H1 as (raw & items & Hraw & Hitems & ->).
  apply apply_to_datetime_Ok in H2 as (dates & Hdates & Hlen & ->).
  pose proof (getcol_length _ _ _ Hraw) as Lraw.
  pose proof (map_result_length _ _ _ Hitems) as Litems.
  pose proof (getcol_length _ _ _ Hdates) as Ldates. simpl in Ldates.
  rewrite length_zip_with, length_map in Ldates.
  apply unsold_loop_quantities in Hloop as [quantities Hq]. simpl in Hq.
  apply zip_insert_other in Hq;
    [|discriminate|rewrite length_map, length_zip_with, length_map; lia].
  apply zip_insert_other in Hq; [|discriminate|rewrite length_map; lia].
  eexists. apply listing_records_Ok. exists raw, items, quantities, dates.
  do 2 (split; [assumption|]). split; [by apply getcol_Ok|].
  split; [|by split].
  apply getcol_Ok in Hdates as [Hcd Hf]. apply getcol_Ok. split; [exact Hcd|].
  simpl in Hf. apply zip_insert_other in Hf; [exact Hf|discriminate|].
  rewrite length_map. lia.
Qed.

(** Lines 43 to 46 on a prepared order frame: the sold items are the Sold set
    of the records the frame holds. *)
Lemma classify_unfold (now : Z) (od ld : DataFrame) (orders : list order_record) :
  "Item number" ∈ columns od -> "Sale date" ∈ columns od ->
  Forall2 holds_order (rows od) orders ->
  classify now od ld =
  (unsold_items ← unsold_loop (sold_set (now - timedelta_days 60) orders)
                   (now - timedelta_days 60) (rows ld) [];
   Ok (DataFrame_of_list (elements (sold_set (now - timedelta_days 60) orders))
         "Sold Item Numbers",
       DataFrame_of_list unsold_items "Unsold Item Numbers")).
Proof.
  intros Hci Hcd Hrel. unfold classify, select_after.
  assert (Hcol : getcol od "Sale date"
                 = Ok (List.map (fun o => timestamp_cell (o_sale_date o)) orders)).
  { apply getcol_Ok. split; [exact Hcd|]. by apply holds_order_columns in Hrel as [_ Hd]. }
  rewrite Hcol. simpl. rewrite recent_mask. simpl.
  set (cutoff := now - timedelta_days 60).
  set (recent := {| columns := columns od;
                    rows := boolean_index (rows od) (List.map (is_recent cutoff) orders) |}).
  assert (Hrecent : Forall2 holds_order (rows recent) (List.filter (is_recent cutoff) orders)).
  { simpl. apply boolean_index_Forall2; [exact Hrel|apply Forall2_map_self]. }
  assert (Hsold : getcol recent "Item number"
                  = Ok (List.map (fun o => PyStr (o_item o))
                          (List.filter (is_recent cutoff) orders))).
  { apply getcol_Ok. split; [exact Hci|].
    by apply holds_order_columns in Hrecent as [Hi _]. }
  rewrite Hsold. reflexivity.
Qed.

Lemma sold_set_dated (cutoff : Z) (orders : list order_record) :
  sold_set cutoff (List.filter has_sale_date orders) = sold_set cutoff orders.
Proof. unfold sold_set. by rewrite filter_recent_dated. Qed.

Lemma missing_columns_nil (expected : list string) (df : DataFrame) :
  missing_columns expected df = [] <-> forall c, c ∈ expected -> c ∈ columns df.
Proof.
  unfold missing_columns. induction expected as [|c expected IH]; simpl.
  - split; [intros _ c Hc; inversion Hc|reflexivity].
  - case_bool_decide as Hc; simpl.
    + rewrite IH. split.
      * intros H c' Hc'. apply elem_of_cons in Hc' as [->|Hc']; [exact Hc|by apply H].
      * intros H c' Hc'. apply H. by right.
    + split; [discriminate|]. intros H. exfalso. apply Hc, H. by left.
Qed.

Lemma order_records_columns (df : DataFrame) (orders : list order_record) :
  order_records df = Ok orders -> missing_columns expected_order_columns df = [].
Proof.
  intros H. apply order_records_Ok in H as (raw & items & dates & Hraw & _ & Hdates & _).
  apply getcol_Ok in Hraw as [Hi _]. apply getcol_Ok in Hdates as [Hd _].
  apply missing_columns_nil. intros c Hc. unfold expected_order_columns in Hc.
  repeat (apply elem_of_cons in Hc as [->|Hc]; [assumption|]). inversion Hc.
Qed.

Lemma listing_records_columns (df : DataFrame) (listings : list listing_record) :
  listing_records df = Ok listings -> missing_columns expected_listing_columns df = [].
Proof.
  intros H.
  apply listing_records_Ok in H
    as (raw & items & quantities & dates & Hraw & _ & Hq & Hdates & _).
  apply getcol_Ok in Hraw as [Hi _]. apply getcol_Ok in Hq as [Hq _].
  apply getcol_Ok in Hdates as [Hd _].
  apply missing_columns_nil. intros c Hc. unfold expected_listing_columns in Hc.
  repeat (apply elem_of_cons in Hc as [->|Hc]; [assumption|]). inversion Hc.
Qed.

(** On two readable files whose records exist, with numbers where a quantity
    is compared, the program returns the Sold set and the Unsold sequence of
    the records and shows no error. *)
Lemma process_ebay_data_complete (listing_file order_file : file) (now : Z) (s : state)
    (odf ldf : DataFrame) (orders : list order_record) (listings : list listing_record) :
  read_orders order_file = Ok odf -> order_records odf = Ok orders ->
  read_listings listing_file = Ok ldf -> listing_records ldf = Ok listings ->
  (forall l, l ∈ listings ->
     PyStr (l_item l) ∉ sold_set (now - timedelta_days 60) orders ->
     exists b, gt_zero (l_available_quantity l) = Ok b) ->
  process_ebay_data listing_file order_file now s =
  (Ok (Some (DataFrame_of_list
               (elements (sold_set (now - timedelta_days 60) orders))
               "Sold Item Numbers"),
       Some (DataFrame_of_list
               (unsold_seq (now - timedelta_days 60)
                  (sold_set (now - timedelta_days 60) orders) listings)
               "Unsold Item Numbers")), s).
Proof.
  intros Hro Ho Hrl Hl Hnum. rewrite process_ebay_data_unfold, Hro.
  rewrite (order_records_columns _ _ Ho).
  pose proof (order_records_columns _ _ Ho) as Hcols.
  destruct (prepare_orders_spec _ _ Ho) as (od & -> & Hc & Hrel).
  rewrite Hrl, (listing_records_columns _ _ Hl).
  destruct (prepare_listings_spec _ _ Hl) as (ld & -> & _ & Hlrel). simpl.
  rewrite (classify_unfold now od ld _) by
    (rewrite ?Hc; first [eapply missing_columns_nil; [exact Hcols|set_solver]|exact Hrel]).
  rewrite sold_set_dated.
  by rewrite (unsold_loop_spec _ _ _ _ _ Hlrel Hnum).
Qed.

(** A run that returns two frames was on two readable files whose records
    exist, with numbers where a quantity was compared. *)
Lemma process_ebay_data_sound (listing_file order_file : file) (now : Z) (s s' : state)
    (sold_df unsold_df : DataFrame) :
  process_ebay_data listing_file order_file now s = (Ok (Some sold_df, Some unsold_df), s') ->
  exists (odf ldf : DataFrame) (orders : list order_record)
         (listings : list listing_record),
    read_orders order_file = Ok odf /\ order_records odf = Ok orders /\
    read_listings listing_file = Ok ldf /\ listing_records ldf = Ok listings /\
    (forall l, l ∈ listings ->
       PyStr (l_item l) ∉ sold_set (now - timedelta_days 60) orders ->
       exists b, gt_zero (l_available_quantity l) = Ok b).
Proof.
  rewrite process_ebay_data_unfold.
  destruct (read_orders order_file) as [odf|e]; [|discriminate].
  destruct (missing_columns expected_order_columns odf) eqn:Hmo; [|discriminate].
  destruct (prepare_orders odf) as [od|e] eqn:Hpo; [|discriminate].
  destruct (read_listings listing_file) as [ldf|e]; [|discriminate].
  destruct (missing_columns expected_listing_columns ldf) eqn:Hml; [|discriminate].
  destruct (prepare_listings ldf) as [ld|e] eqn:Hpl; [|discriminate]. simpl.
  destruct (classify now od ld) as [[a b]|e] eqn:Hcl; [|discriminate]. intros _.
  destruct (prepare_orders_inv _ _ Hpo) as [orders Ho].
  destruct (prepare_orders_spec _ _ Ho) as (od' & Hpo' & Hc & Hrel).
  rewrite Hpo in Hpo'. injection Hpo' as <-.
  rewrite (classify_unfold now od ld _) in Hcl by
    (rewrite ?Hc; first [eapply missing_columns_nil; [exact Hmo|set_solver]|exact Hrel]).
  rewrite sold_set_dated in Hcl.
  destruct (unsold_loop _ _ (rows ld) []) as [unsold|e] eqn:Hloop; [|discriminate].
  assert (Hq : "Available quantity" ∈ columns ldf).
  { eapply missing_columns_nil; [exact Hml|set_solver]. }
  destruct (prepare_listings_inv _ _ _ _ _ _ Hq Hpl Hloop) as [listings Hl].
  destruct (prepare_listings_spec _ _ Hl) as (ld' & Hpl' & _ & Hlrel).
  rewrite Hpl in Hpl'. injection Hpl' as <-.
  exists odf, ldf, orders, listings. do 4 (split; [reflexivity || assumption|]).
  by eapply unsold_loop_inv.
Qed.

(** A run that returns two frames returns the Sold set and the Unsold
    sequence of the records of its two files, and leaves the state alone. *)
Lemma process_ebay_data_result (listing_file order_file : file) (now : Z) (s s' : state)
    (sold_df unsold_df odf ldf : DataFrame) (orders : list order_record)
    (listings : list listing_record) :
  process_ebay_data listing_file order_file now s = (Ok (Some sold_df, Some unsold_df), s') ->
  read_orders order_file = Ok odf -> order_records odf = Ok orders ->
  read_listings listing_file = Ok ldf -> listing_records ldf = Ok listings ->
  column_values sold_df "Sold Item Numbers"
    = elements (sold_set (now - timedelta_days 60) orders) /\
  column_values unsold_df "Unsold Item Numbers"
    = unsold_seq (now - timedelta_days 60)
        (sold_set (now - timedelta_days 60) orders) listings /\
  s' = s.
Proof.
  intros Hrun Hro Ho Hrl Hl.
  destruct (process_ebay_data_sound _ _ _ _ _ _ _ Hrun)
    as (odf' & ldf' & orders' & listings' & Hro' & Ho' & Hrl' & Hl' & Hnum).
  rewrite Hro in Hro'. injection Hro' as <-. rewrite Ho in Ho'. injection Ho' as <-.
  rewrite Hrl in Hrl'. injection Hrl' as <-. rewrite Hl in Hl'. injection Hl' as <-.
  rewrite (process_ebay_data_complete _ _ _ s _ _ _ _ Hro Ho Hrl Hl Hnum) in Hrun.
  injection Hrun as <- <- <-. by rewrite !column_values_of_list.
Qed.

Lemma elem_of_unsold_seq (cutoff : Z) (sold : gset pyval) (listings : list listing_record)
    (v : pyval) :
  v ∈ unsold_seq cutoff sold listings <->
  exists l, l ∈ listings /\ v = PyStr (l_item l) /\ qualifies cutoff sold l = true.
Proof.
  unfold unsold_seq. rewrite list_elem_of_In, in_map_iff. split.
  - intros (l & <- & Hl). apply filter_In in Hl as [Hl Hq].
    exists l. by rewrite list_elem_of_In.
  - intros (l & Hl & -> & Hq). exists l. split; [reflexivity|].
    apply filter_In. by rewrite <- list_elem_of_In.
Qed.

Lemma elem_of_sold_set (cutoff : Z) (orders : list order_record) (v : pyval) :
  v ∈ sold_set cutoff orders <->
  exists o, o ∈ orders /\ v = PyStr (o_item o) /\ is_recent cutoff o = true.
Proof.
  unfold sold_set. rewrite elem_of_list_to_set, list_elem_of_In, in_map_iff. split.
  - intros (o & <- & Ho). apply filter_In in Ho as [Ho Hr].
    exists o. by rewrite list_elem_of_In.
  - intros (o & Ho & -> & Hr). exists o. split; [reflexivity|].
    apply filter_In. by rewrite <- list_elem_of_In.
Qed.

(** C1. In a run that returns its two frames, no item number of the Unsold
    frame is among the item numbers of the Sold frame. *)
Theorem sold_unsold_disjoint (listing_file order_file : file) (now : Z) (s s' : state)
    (sold_df unsold_df : DataFrame) :
  process_ebay_data listing_file order_file now s = (Ok (Some sold_df, Some unsold_df), s') ->
  forall v : pyval,
    v ∈ column_values unsold_df "Unsold Item Numbers" ->
    v ∉ column_values sold_df "Sold Item Numbers".
Proof.
  intros Hrun v.
  destruct (process_ebay_data_sound _ _ _ _ _ _ _ Hrun)
    as (odf & ldf & orders & listings & Hro & Ho & Hrl & Hl & _).
  destruct (process_ebay_data_result _ _ _ _ _ _ _ _ _ _ _ Hrun Hro Ho Hrl Hl)
    as (-> & -> & _).
  rewrite elem_of_unsold_seq, elem_of_elements.
  intros (l & _ & -> & Hq). unfold qualifies in Hq.
  apply andb_prop in Hq as [Hq _]. apply andb_prop in Hq as [Hq _].
  by apply bool_decide_eq_true in Hq.
Qed.

(** C2, as the program has it. An item number is in the Sold frame exactly
    when some order of it has a sale date strictly after [now - 60 days]: one
    second after the cutoff is in, the cutoff itself and every earlier
    instant, such as 60 days and 1 second before [now], are out. Every item
    number of the Unsold frame comes from a listing whose start date is
    strictly before the cutoff, so a listing started at the cutoff itself is
    not old enough. *)
Theorem cutoff_is_strict (listing_file order_file : file) (now : Z) (s s' : state)
    (sold_df unsold_df odf ldf : DataFrame) (orders : list order_record)
    (listings : list listing_record) :
  process_ebay_data listing_file order_file now s = (Ok (Some sold_df, Some unsold_df), s') ->
  read_orders order_file = Ok odf -> order_records odf = Ok orders ->
  read_listings listing_file = Ok ldf -> listing_records ldf = Ok listings ->
  (forall x : string,
     PyStr x ∈ column_values sold_df "Sold Item Numbers" <->
     exists t : Z, mkOrder x (Some t) ∈ orders /\ now - timedelta_days 60 < t) /\
  (forall v : pyval,
     v ∈ column_values unsold_df "Unsold Item Numbers" ->
     exists (l : listing_record) (t : Z),
       l ∈ listings /\ v = PyStr (l_item l) /\ l_start_date l = Some t /\
       t < now - timedelta_days 60).
Proof.
  intros Hrun Hro Ho Hrl Hl.
  destruct (process_ebay_data_result _ _ _ _ _ _ _ _ _ _ _ Hrun Hro Ho Hrl Hl)
    as (-> & -> & _).
  split.
  - intros x. rewrite elem_of_elements, elem_of_sold_set. split.
    + intros ([i [t|]] & Hin & [= ->] & Hr); unfold is_recent in Hr; simpl in Hr;
        [|discriminate].
      exists t. split; [exact Hin|]. by apply Z.ltb_lt.
    + intros (t & Hin & Ht). exists (mkOrder x (Some t)). split; [exact Hin|].
      split; [reflexivity|]. by apply Z.ltb_lt.
  - intros v. rewrite elem_of_unsold_seq. intros (l & Hin & -> & Hq).
    unfold qualifies in Hq. apply andb_prop in Hq as [_ Hq].
    unfold started_before in Hq. destruct (l_start_date l) as [t|] eqn:Hd; [|discriminate].
    exists l, t. do 3 (split; [done|]). by apply Z.ltb_lt.
Qed.

(** C5. The Unsold frame lists the item numbers of the qualifying listings,
    and a listing whose quantity cell is zero does not qualify, whatever its
    item number, its start date and the Sold set. *)
Theorem zero_quantity_never_unsold (listing_file order_file : file) (now : Z)
    (s s' : state) (sold_df unsold_df odf ldf : DataFrame) (orders : list order_record)
    (listings : list listing_record) :
  process_ebay_data listing_file order_file now s = (Ok (Some sold_df, Some unsold_df), s') ->
  read_orders order_file = Ok odf -> order_records odf = Ok orders ->
  read_listings listing_file = Ok ldf -> listing_records ldf = Ok listings ->
  exists kept : list listing_record,
    column_values unsold_df "Unsold Item Numbers"
      = List.map (fun l => PyStr (l_item l)) kept /\
    kept = List.filter
             (qualifies (now - timedelta_days 60)
                (sold_set (now - timedelta_days 60) orders)) listings /\
    (forall l, l ∈ kept -> zero_quantity (l_available_quantity l) = false) /\
    (forall (l : listing_record) (cutoff : Z) (sold : gset pyval),
       zero_quantity (l_available_quantity l) = true -> qualifies cutoff sold l = false).
Proof.
  intros Hrun Hro Ho Hrl Hl.
  destruct (process_ebay_data_result _ _ _ _ _ _ _ _ _ _ _ Hrun Hro Ho Hrl Hl)
    as (_ & -> & _).
  assert (Hzero : forall (l : listing_record) (cutoff : Z) (sold : gset pyval),
             zero_quantity (l_available_quantity l) = true -> qualifies cutoff sold l = false).
  { intros l cutoff sold Hz. unfold qualifies.
    destruct (l_available_quantity l) as [| |[| |]|[| | |]| |]; try discriminate;
      by rewrite andb_false_r. }
  eexists. split; [reflexivity|]. split; [reflexivity|]. split; [|exact Hzero].
  intros l Hin. apply list_elem_of_In, filter_In in Hin as [_ Hq].
  destruct (zero_quantity (l_available_quantity l)) eqn:Hz; [|reflexivity].
  by rewrite (Hzero l _ _ Hz) in Hq.
Qed.

(** C8. The Unsold frame is the item numbers of the qualifying listings in
    file order, one entry for each qualifying row; the Sold frame has no
    repetition and holds exactly the item numbers of the recent orders. *)
Theorem unsold_in_file_order_sold_distinct (listing_file order_file : file) (now : Z)
    (s s' : state) (sold_df unsold_df odf ldf : DataFrame) (orders : list order_record)
    (listings : list listing_record) :
  process_ebay_data listing_file order_file now s = (Ok (Some sold_df, Some unsold_df), s') ->
  read_orders order_file = Ok odf -> order_records odf = Ok orders ->
  read_listings listing_file = Ok ldf -> listing_records ldf = Ok listings ->
  column_values unsold_df "Unsold Item Numbers"
    = List.map (fun l => PyStr (l_item l))
        (List.filter
           (qualifies (now - timedelta_days 60)
              (list_to_set (column_values sold_df "Sold Item Numbers")))
           listings) /\
  NoDup (column_values sold_df "Sold Item Numbers") /\
  (forall v : pyval,
     v ∈ column_values sold_df "Sold Item Numbers" <->
     v ∈ List.map (fun o => PyStr (o_item o))
           (List.filter (is_recent (now - timedelta_days 60)) orders)).
Proof.
  intros Hrun Hro Ho Hrl Hl.
  destruct (process_ebay_data_result _ _ _ _ _ _ _ _ _ _ _ Hrun Hro Ho Hrl Hl)
    as (-> & -> & _).
  split; [|split].
  - by rewrite list_to_set_elements_L.
  - apply NoDup_elements.
  - intros v. rewrite elem_of_elements. unfold sold_set.
    by rewrite elem_of_list_to_set.
Qed.

Lemma comparable_quantities_spec (sold : gset pyval) (listings : list listing_record) :
  comparable_quantities sold listings = true ->
  forall l, l ∈ listings -> PyStr (l_item l) ∉ sold ->
            exists b, gt_zero (l_available_quantity l) = Ok b.
Proof.
  unfold comparable_quantities. rewrite forallb_forall.
  intros H l Hl Hs. apply list_elem_of_In, H in Hl.
  apply orb_prop in Hl as [Hl|Hl].
  - by apply bool_decide_eq_true in Hl.
  - destruct (gt_zero (l_available_quantity l)) as [b|e]; [by exists b|discriminate].
Qed.

(** C9. On two readable files whose records exist, the run returns its two
    frames and shows no error, however many start dates failed to parse; the
    comparison of a missing start date with the cutoff is false, and a
    listing with a missing start date is not among the listings the Unsold
    frame is made of. *)
Theorem unparsed_start_date_not_unsold (listing_file order_file : file) (now : Z)
    (s : state) (odf ldf : DataFrame) (orders : list order_record)
    (listings : list listing_record) :
  read_orders order_file = Ok odf -> order_records odf = Ok orders ->
  read_listings listing_file = Ok ldf -> listing_records ldf = Ok listings ->
  comparable_quantities (sold_set (now - timedelta_days 60) orders) listings = true ->
  exists sold_df unsold_df : DataFrame,
    process_ebay_data listing_file order_file now s
      = (Ok (Some sold_df, Some unsold_df), s) /\
    column_values unsold_df "Unsold Item Numbers"
      = List.map (fun l => PyStr (l_item l))
          (List.filter
             (qualifies (now - timedelta_days 60)
                (sold_set (now - timedelta_days 60) orders)) listings) /\
    (forall l : listing_record,
       l_start_date l = None ->
       lt_datetime (timestamp_cell (l_start_date l)) (now - timedelta_days 60) = Ok false /\
       l ∉ List.filter
             (qualifies (now - timedelta_days 60)
                (sold_set (now - timedelta_days 60) orders)) listings).
Proof.
  intros Hro Ho Hrl Hl Hnum.
  pose proof (comparable_quantities_spec _ _ Hnum) as Hcmp.
  do 2 eexists. split; [by eapply process_ebay_data_complete|].
  split; [by rewrite column_values_of_list|].
  intros l Hd. rewrite Hd. split; [reflexivity|].
  rewrite list_elem_of_In, filter_In. intros [_ Hq].
  unfold qualifies in Hq. rewrite Hd in Hq. simpl in Hq.
  by rewrite andb_false_r in Hq.
Qed.


Lemma append_assoc (a b c : string) : (a +:+ b) +:+ c = a +:+ b +:+ c.
Proof.
  induction a as [|x a IH]; [reflexivity|].
  change (String x ((a +:+ b) +:+ c) = String x (a +:+ b +:+ c)). by rewrite IH.
Qed.

Lemma append_empty_r (a : string) : a +:+ EmptyString = a.
Proof.
  induction a as [|x a IH]; [reflexivity|].
  change (String x (a +:+ EmptyString) = String x a). by rewrite IH.
Qed.

Lemma concat_names (sep c : string) (l : list string) :
  c ∈ l -> names (String.concat sep l) c.
Proof.
  induction l as [|x l IH]; intros Hc; [inversion Hc|].
  apply elem_of_cons in Hc as [->|Hc].
  - destruct l as [|y l].
    + exists EmptyString, EmptyString. simpl. by rewrite append_empty_r.
    + exists EmptyString, (sep +:+ String.concat sep (y :: l)). reflexivity.
  - destruct (IH Hc) as (pre & post & Heq). destruct l as [|y l]; [inversion Hc|].
    exists (x +:+ sep +:+ pre), post.
    change (String.concat sep (x :: y :: l)) with (x +:+ sep +:+ String.concat sep (y :: l)).
    rewrite Heq. by rewrite !append_assoc.
Qed.

Lemma names_prefixed (pre text c : string) : names text c -> names (pre +:+ text) c.
Proof.
  intros (a & b & ->). exists (pre +:+ a), b. by rewrite append_assoc.
Qed.

Lemma missing_columns_cons (expected : list string) (df : DataFrame) :
  missing_columns expected df <> [] ->
  exists c rest, missing_columns expected df = c :: rest.
Proof. destruct (missing_columns expected df) as [|c rest]; [done|]. by exists c, rest. Qed.

(** C4, as the program has it. When the order file is read and lacks a
    required column, the run shows the message that lists the missing
    columns and returns no frame at all. The same holds for the listing file
    once the order file has been read and normalised without an exception.
    And no run on files that were read returns its two frames when a
    required column is missing from either. *)
Theorem missing_column_aborts (listing_file order_file : file) (now : Z) (s : state)
    (odf : DataFrame) :
  read_orders order_file = Ok odf ->
  (missing_columns expected_order_columns odf <> [] ->
   let msg := "Missing expected columns: "
              +:+ String.concat ", " (missing_columns expected_order_columns odf) in
   process_ebay_data listing_file order_file now s = (Ok (None, None), add_error s msg) /\
   forall c, c ∈ missing_columns expected_order_columns odf -> names msg c) /\
  (forall (ldf : DataFrame) (orders : list order_record),
     order_records odf = Ok orders -> read_listings listing_file = Ok ldf ->
     missing_columns expected_listing_columns ldf <> [] ->
     let msg := "Missing expected columns: "
                +:+ String.concat ", " (missing_columns expected_listing_columns ldf) in
     process_ebay_data listing_file order_file now s = (Ok (None, None), add_error s msg) /\
     forall c, c ∈ missing_columns expected_listing_columns ldf -> names msg c) /\
  (forall ldf : DataFrame,
     read_listings listing_file = Ok ldf ->
     missing_columns expected_order_columns odf <> [] \/
     missing_columns expected_listing_columns ldf <> [] ->
     forall (sold_df unsold_df : DataFrame) (s' : state),
       process_ebay_data listing_file order_file now s
       <> (Ok (Some sold_df, Some unsold_df), s')).
Proof.
  intros Hro. split; [|split].
  - intros Hm. split.
    + rewrite process_ebay_data_unfold, Hro.
      by destruct (missing_columns_cons _ _ Hm) as (c & rest & ->).
    + intros c Hc. by apply names_prefixed, concat_names.
  - intros ldf orders Ho Hrl Hm. split.
    + rewrite process_ebay_data_unfold, Hro, (order_records_columns _ _ Ho).
      destruct (prepare_orders_spec _ _ Ho) as (od & -> & _). rewrite Hrl.
      by destruct (missing_columns_cons _ _ Hm) as (c & rest & ->).
    + intros c Hc. by apply names_prefixed, concat_names.
  - intros ldf Hrl Hm sold_df unsold_df s' Hrun.
    destruct (process_ebay_data_sound _ _ _ _ _ _ _ Hrun)
      as (odf' & ldf' & orders & listings & Hro' & Ho & Hrl' & Hl & _).
    rewrite Hro in Hro'. injection Hro' as <-. rewrite Hrl in Hrl'. injection Hrl' as <-.
    destruct Hm as [Hm|Hm]; apply Hm.
    + by eapply order_records_columns.
    + by eapply listing_records_columns.
Qed.





(** The program only ever adds messages: what it returns does not depend on
    the state it starts in, and the session is left as it is. *)
Lemma process_ebay_data_state (listing_file order_file : file) (now : Z) :
  exists (r : result (option DataFrame * option DataFrame)) (msgs : list string),
    forall s : state,
      process_ebay_data listing_file order_file now s
      = (r, {| errors := errors s ++ msgs; session_state := session_state s |}).
Proof.
  assert (Hid : forall (A : Type) (r : result A) (s : state),
             (r, s)
             = (r, {| errors := errors s ++ []; session_state := session_state s |})).
  { intros A r [errs sess]. simpl. by rewrite app_nil_r. }
  setoid_rewrite process_ebay_data_unfold.
  destruct (read_orders order_file) as [odf|e]; [|by do 2 eexists].
  destruct (missing_columns expected_order_columns odf); [|by do 2 eexists].
  destruct (prepare_orders odf) as [od|e]; [|exists (Raise e), []; apply Hid].
  destruct (read_listings listing_file) as [ldf|e]; [|by do 2 eexists].
  destruct (missing_columns expected_listing_columns ldf); [|by do 2 eexists].
  destruct (_ ≫= _) as [[a b]|e].
  - exists (Ok (Some a, Some b)), []. apply Hid.
  - exists (Raise e), []. apply Hid.
Qed.

Lemma session_init_spec (k : string) (s : state) :
  exists s1 : state,
    session_init k s = (Ok (), s1) /\ errors s1 = errors s /\
    (forall k', stored k' s1 = stored k' s) /\ is_Some (session_state s1 !! k).
Proof.
  unfold session_init. destruct (session_state s !! k) as [v|] eqn:Hk.
  - exists s. by rewrite Hk.
  - eexists. split; [reflexivity|]. split; [reflexivity|]. split.
    + intros k'. unfold stored. simpl. destruct (decide (k = k')) as [->|Hne].
      * by rewrite lookup_insert_eq, Hk.
      * by rewrite lookup_insert_ne.
    + simpl. by rewrite lookup_insert_eq.
Qed.

(** C7. Whatever the session held, after a run with both files and the
    button pressed the two session keys hold the two frames the processing
    step returned, when it returned two frames; in every other case, also
    when it raised, they hold what they held before. What the processing
    step returns does not depend on the state it started in. *)
Theorem session_results_atomic (listing_file order_file : file) (now : Z) (s s0 : state) :
  let after := script (Some listing_file) (Some order_file) true now s in
  match fst (process_ebay_data listing_file order_file now s0) with
  | Ok (Some sold_df, Some unsold_df) =>
      fst after = Ok () /\
      stored "sold_df" (snd after) = Some sold_df /\
      stored "unsold_df" (snd after) = Some unsold_df
  | _ =>
      stored "sold_df" (snd after) = stored "sold_df" s /\
      stored "unsold_df" (snd after) = stored "unsold_df" s
  end.
Proof.
  destruct (process_ebay_data_state listing_file order_file now) as (r & msgs & Hrun).
  cbv zeta. rewrite (Hrun s0). cbn [fst].
  destruct (session_init_spec "sold_df" s) as (s1 & H1 & _ & Hs1 & _).
  destruct (session_init_spec "unsold_df" s1) as (s2 & H2 & _ & Hs2 & _).
  assert (Hsame : forall k msgs',
             stored k {| errors := msgs'; session_state := session_state s2 |} = stored k s).
  { intros k msgs'. transitivity (stored k s2); [reflexivity|]. by rewrite Hs2, Hs1. }
  unfold Main.script, mbind, M_bind. rewrite H1. cbv beta iota.
  rewrite H2. cbv beta iota. rewrite (Hrun s2). cbv beta iota.
  destruct r as [[[sold_df|] [unsold_df|]]|e]; cbn [fst snd mret M_ret];
    try (split; apply Hsame).
  unfold session_set, stored. cbn [fst snd session_state].
  split; [reflexivity|]. split.
  - rewrite lookup_insert_ne by discriminate. by rewrite lookup_insert_eq.
  - by rewrite lookup_insert_eq.
Qed.

(** *** Item numbers *)

Lemma list_ascii_of_append (a b : string) :
  list_ascii_of_string (a +:+ b) = list_ascii_of_string a ++ list_ascii_of_string b.
Proof.
  induction a as [|x a IH]; [reflexivity|].
  change (x :: list_ascii_of_string (a +:+ b)
          = x :: (list_ascii_of_string a ++ list_ascii_of_string b)).
  by rewrite IH.
Qed.

Lemma digit_not_sign (c : ascii) :
  is_digit c = true -> is_char c "-" = false /\ is_char c "." = false.
Proof. destruct c as [[] [] [] [] [] [] [] []]; try discriminate; by split. Qed.

Lemma uint_digits (d : Decimal.uint) :
  forallb is_digit (list_ascii_of_string (NilEmpty.string_of_uint d)) = true.
Proof. induction d; simpl; try reflexivity; exact IHd. Qed.

Lemma decimal_of_N_digits (n : N) :
  exists c l, list_ascii_of_string (decimal_of_N n) = c :: l /\
              forallb is_digit (c :: l) = true.
Proof.
  unfold decimal_of_N, NilZero.string_of_uint.
  pose proof (uint_digits (N.to_uint n)) as H.
  destruct (N.to_uint n); simpl in *; by do 2 eexists.
Qed.

Lemma no_point_in_digits (l : list ascii) :
  forallb is_digit l = true -> existsb (fun c => is_char c ".") l = false.
Proof.
  induction l as [|c l IH]; simpl; [reflexivity|]. intros H.
  apply andb_prop in H as [Hc Hl]. apply digit_not_sign in Hc as [_ ->]. by apply IH.
Qed.

Lemma signed_digits (neg : bool) (ds : string) (c : ascii) (l : list ascii) :
  list_ascii_of_string ds = c :: l -> forallb is_digit (c :: l) = true ->
  is_integer_string (sign_string neg +:+ ds) = true /\
  has_decimal_point (sign_string neg +:+ ds) = false.
Proof.
  intros Hds Hdig. unfold is_integer_string, has_decimal_point.
  rewrite list_ascii_of_append, Hds. pose proof (no_point_in_digits _ Hdig) as Hp.
  destruct neg; simpl.
  - split; [exact Hdig|exact Hp].
  - simpl in Hdig. pose proof Hdig as Hdig'. apply andb_prop in Hdig' as [Hc _].
    apply digit_not_sign in Hc as [-> _]. by split.
Qed.

Lemma format_0f_finite (x : spec_float) :
  is_finite x = true ->
  is_integer_string (format_0f x) = true /\ has_decimal_point (format_0f x) = false.
Proof.
  destruct x as [neg|neg| |neg m e]; try discriminate; intros _.
  - by destruct neg.
  - simpl. destruct (decimal_of_N_digits (round_half_even m e)) as (c & l & Hds & Hdig).
    by eapply signed_digits.
Qed.

Lemma format_0f_no_point (x : spec_float) : has_decimal_point (format_0f x) = false.
Proof.
  destruct x as [neg|neg| |neg m e].
  - by destruct neg.
  - by destruct neg.
  - reflexivity.
  - by apply (format_0f_finite (S754_finite neg m e)).
Qed.

(** C3, as the program has it. ["123456789.0"] gives ["123456789"]; the
    empty text and [None] give the empty text; every other text is parsed as
    a float and formatted with no digit after the point; when the float is
    finite the result is an integer text, a minus sign or none and then
    digits; a float that is not finite gives [inf], [-inf] or [nan]; and no
    result holds a decimal point. *)
Theorem format_item_number_spec :
  format_item_number (PyStr "123456789.0") = Ok "123456789" /\
  format_item_number (PyStr EmptyString) = Ok EmptyString /\
  format_item_number PyNone = Ok EmptyString /\
  (forall s : string,
     s <> EmptyString ->
     format_item_number (PyStr s) = (x ← float_of_string s; Ok (format_0f x))) /\
  (forall (s : string) (x : spec_float),
     s <> EmptyString -> float_of_string s = Ok x -> is_finite x = true ->
     format_item_number (PyStr s) = Ok (format_0f x) /\
     is_integer_string (format_0f x) = true) /\
  (forall x : spec_float,
     is_finite x = false -> format_0f x ∈ ["inf"; "-inf"; "nan"]) /\
  (forall (v : pyval) (out : string),
     format_item_number v = Ok out -> has_decimal_point out = false).
Proof.
  assert (Hne : forall s : string,
             s <> EmptyString ->
             format_item_number (PyStr s) = (x ← float_of_string s; Ok (format_0f x))).
  { intros s Hs. unfold format_item_number. simpl.
    destruct (String.eqb_spec s EmptyString) as [->|_]; [contradiction|reflexivity]. }
  split; [by vm_compute|]. split; [reflexivity|]. split; [reflexivity|].
  split; [exact Hne|]. split; [|split].
  - intros s x Hs Hx Hfin. rewrite (Hne s Hs), Hx. split; [reflexivity|].
    by apply format_0f_finite.
  - intros [neg|[|]| |neg m e]; try discriminate; intros _; set_solver.
  - intros v out. unfold format_item_number. destruct (truthy v); [|by intros [= <-]].
    destruct (py_float v) as [x|e]; [|discriminate]. simpl. intros [= <-].
    apply format_0f_no_point.
Qed.

End Properties.

(** *** The program on the small instance *)

Example toy_run :
  toy_process toy_listings toy_orders toy_now empty_state
  = (Ok (Some toy_sold_df, Some toy_unsold_df), empty_state).
Proof. run. Qed.

(** The end-to-end case of the specification: item 100 sold five days ago,
    items 100 and 200 listed ninety days ago with one piece each. *)
Example end_to_end :
  toy_process
    (listing_frame [listing_row "100" "78624000000000" (PyInt 1);
                    listing_row "200" "78624000000000" (PyInt 1)])
    (order_frame [order_row "100" "85968000000000"]) toy_now empty_state
  = (Ok (Some (DataFrame_of_list [PyStr "100"] "Sold Item Numbers"),
         Some (DataFrame_of_list [PyStr "200"] "Unsold Item Numbers")), empty_state).
Proof. run. Qed.

Lemma sold_unsold_disjoint_witness :
  toy_process toy_listings toy_orders toy_now empty_state
    = (Ok (Some toy_sold_df, Some toy_unsold_df), empty_state) /\
  forall v : pyval,
    v ∈ column_values toy_unsold_df "Unsold Item Numbers" ->
    v ∉ column_values toy_sold_df "Sold Item Numbers".
Proof.
  split; [run|].
  apply (sold_unsold_disjoint toy_file toy_read_csv toy_to_datetime
           toy_listings toy_orders toy_now empty_state empty_state).
  run.
Defined.

(** The claim C2 as the specification words it fails: a sale 60 days and 1
    second before the run is before the cutoff, and its item is not in the
    Sold frame; it is in the Unsold frame. *)
Lemma sale_60_days_1_second_before_now_not_sold :
  order_records toy_to_datetime late_order_data
    = Ok [mkOrder "100" (Some (toy_now - timedelta_days 60 - 1 * second))] /\
  toy_process (Ok late_listing_data) (Ok late_order_data) toy_now empty_state
    = (Ok (Some (DataFrame_of_list [] "Sold Item Numbers"),
           Some (DataFrame_of_list [PyStr "100"] "Unsold Item Numbers")), empty_state) /\
  PyStr "100" ∉ column_values (DataFrame_of_list [] "Sold Item Numbers") "Sold Item Numbers".
Proof.
  split; [run|]. split; [run|]. rewrite column_values_of_list. by apply not_elem_of_nil.
Qed.

Lemma cutoff_is_strict_witness :
  (forall x : string,
     PyStr x ∈ column_values toy_sold_df "Sold Item Numbers" <->
     exists t : Z, mkOrder x (Some t) ∈ toy_order_records /\ toy_now - timedelta_days 60 < t) /\
  (forall v : pyval,
     v ∈ column_values toy_unsold_df "Unsold Item Numbers" ->
     exists (l : listing_record) (t : Z),
       l ∈ toy_listing_records /\ v = PyStr (l_item l) /\ l_start_date l = Some t /\
       t < toy_now - timedelta_days 60).
Proof.
  apply (cutoff_is_strict toy_file toy_read_csv toy_to_datetime
           toy_listings toy_orders toy_now empty_state empty_state
           toy_sold_df toy_unsold_df toy_order_data toy_listing_data); run.
Defined.

Lemma zero_quantity_never_unsold_witness :
  exists kept : list listing_record,
    column_values toy_unsold_df "Unsold Item Numbers"
      = List.map (fun l => PyStr (l_item l)) kept /\
    kept = List.filter
             (qualifies (toy_now - timedelta_days 60)
                (sold_set (toy_now - timedelta_days 60) toy_order_records))
             toy_listing_records /\
    (forall l, l ∈ kept -> zero_quantity (l_available_quantity l) = false) /\
    (forall (l : listing_record) (cutoff : Z) (sold : gset pyval),
       zero_quantity (l_available_quantity l) = true -> qualifies cutoff sold l = false).
Proof.
  apply (zero_quantity_never_unsold toy_file toy_read_csv toy_to_datetime
           toy_listings toy_orders toy_now empty_state empty_state
           toy_sold_df toy_unsold_df toy_order_data toy_listing_data); run.
Defined.

Lemma unsold_in_file_order_sold_distinct_witness :
  column_values toy_unsold_df "Unsold Item Numbers"
    = List.map (fun l => PyStr (l_item l))
        (List.filter
           (qualifies (toy_now - timedelta_days 60)
              (list_to_set (column_values toy_sold_df "Sold Item Numbers")))
           toy_listing_records) /\
  NoDup (column_values toy_sold_df "Sold Item Numbers") /\
  (forall v : pyval,
     v ∈ column_values toy_sold_df "Sold Item Numbers" <->
     v ∈ List.map (fun o => PyStr (o_item o))
           (List.filter (is_recent (toy_now - timedelta_days 60)) toy_order_records)).
Proof.
  apply (unsold_in_file_order_sold_distinct toy_file toy_read_csv toy_to_datetime
           toy_listings toy_orders toy_now empty_state empty_state
           toy_sold_df toy_unsold_df toy_order_data toy_listing_data); run.
Defined.

(** The item listed twice is emitted twice. *)
Example unsold_keeps_duplicates :
  column_values toy_unsold_df "Unsold Item Numbers" = [PyStr "200"; PyStr "200"].
Proof. run. Qed.

Lemma unparsed_start_date_not_unsold_witness :
  exists sold_df unsold_df : DataFrame,
    toy_process toy_listings toy_orders toy_now empty_state
      = (Ok (Some sold_df, Some unsold_df), empty_state) /\
    column_values unsold_df "Unsold Item Numbers"
      = List.map (fun l => PyStr (l_item l))
          (List.filter
             (qualifies (toy_now - timedelta_days 60)
                (sold_set (toy_now - timedelta_days 60) toy_order_records))
             toy_listing_records) /\
    (forall l : listing_record,
       l_start_date l = None ->
       lt_datetime (timestamp_cell (l_start_date l)) (toy_now - timedelta_days 60)
         = Ok false /\
       l ∉ List.filter
             (qualifies (toy_now - timedelta_days 60)
                (sold_set (toy_now - timedelta_days 60) toy_order_records))
             toy_listing_records).
Proof.
  apply (unparsed_start_date_not_unsold toy_file toy_read_csv toy_to_datetime
           toy_listings toy_orders toy_now empty_state
           toy_order_data toy_listing_data); run.
Defined.


(** The claim C4 as the specification words it fails: the listing file
    lacks [Start date], and the run shows no message about it, because the
    order file made it raise before the listing file was read. *)
Lemma missing_column_not_reported :
  missing_columns expected_listing_columns no_start_date_listing_data = ["Start date"] /\
  toy_process (Ok no_start_date_listing_data) (Ok bad_item_order_data) toy_now empty_state
    = (Raise (Exn ValueError "could not convert string to float: 'abc'"), empty_state).
Proof. split; run. Qed.

Lemma missing_column_aborts_witness :
  toy_process toy_listings (Ok no_sale_date_order_data) toy_now empty_state
    = (Ok (None, None), add_error empty_state "Missing expected columns: Sale date") /\
  toy_process (Ok no_start_date_listing_data) toy_orders toy_now empty_state
    = (Ok (None, None), add_error empty_state "Missing expected columns: Start date").
Proof.
  split.
  - refine (proj1 (proj1 (missing_column_aborts toy_file toy_read_csv toy_to_datetime
                            toy_listings (Ok no_sale_date_order_data) toy_now empty_state
                            no_sale_date_order_data eq_refl) _)).
    vm_compute. discriminate.
  - refine (proj1 (proj1 (proj2 (missing_column_aborts toy_file toy_read_csv toy_to_datetime
                                   (Ok no_start_date_listing_data) toy_orders toy_now
                                   empty_state toy_order_data eq_refl))
                     no_start_date_listing_data toy_order_records _ eq_refl _)).
    + run.
    + vm_compute. discriminate.
Defined.


(** The claim C3 as the specification words it fails: the text [inf] is not
    empty, and what it is normalised to is no integer text. *)
Lemma format_item_number_inf :
  format_item_number (PyStr "inf") = Ok "inf" /\ is_integer_string "inf" = false.
Proof. split; run. Qed.

Lemma format_item_number_spec_witness :
  format_item_number (PyStr "42.5")
    = Ok (format_0f (S754_finite false 5981343255101440 (-47))) /\
  is_integer_string (format_0f (S754_finite false 5981343255101440 (-47))) = true.
Proof.
  refine (proj1 (proj2 (proj2 (proj2 (proj2 format_item_number_spec)))) "42.5" _ _ _ _).
  - discriminate.
  - run.
  - reflexivity.
Defined.

(** A missing cell, as [pd.read_csv] leaves it, is a NaN and is true in a
    condition: it is normalised to the text [nan]. *)
Example format_item_number_missing_cell :
  format_item_number (PyFloat S754_nan) = Ok "nan".
Proof. reflexivity. Qed.

Example format_item_number_half_to_even :
  format_item_number (PyStr "42.5") = Ok "42" /\
  format_item_number (PyStr "43.5") = Ok "44" /\
  format_item_number (PyStr "-0.4") = Ok "-0" /\
  format_item_number (PyStr " 1_000e-1 ") = Ok "100".
Proof. repeat split; run. Qed.

(** A second run replaces what the first run stored. *)
Example second_run_replaces :
  let first := snd (script toy_file toy_read_csv toy_to_datetime
                      (Some toy_listings) (Some toy_orders) true toy_now empty_state) in
  let second := snd (script toy_file toy_read_csv toy_to_datetime
                       (Some (Ok late_listing_data)) (Some (Ok late_order_data)) true
                       toy_now first) in
  stored "sold_df" first = Some toy_sold_df /\
  stored "unsold_df" first = Some toy_unsold_df /\
  stored "sold_df" second = Some (DataFrame_of_list [] "Sold Item Numbers") /\
  stored "unsold_df" second
    = Some (DataFrame_of_list [PyStr "100"] "Unsold Item Numbers").
Proof. repeat split; run. Qed.

(** A run that fails keeps what the run before it stored. *)
Example failed_run_keeps :
  let first := snd (script toy_file toy_read_csv toy_to_datetime
                      (Some toy_listings) (Some toy_orders) true toy_now empty_state) in
  let second := script toy_file toy_read_csv toy_to_datetime
                  (Some toy_listings) (Some (Ok bad_item_order_data)) true toy_now first in
  fst second = Raise (Exn ValueError "could not convert string to float: 'abc'") /\
  stored "sold_df" (snd second) = Some toy_sold_df /\
  stored "unsold_df" (snd second) = Some toy_unsold_df.
Proof. repeat split; run. Qed.

(** ** More of the program *)

(** *** Decimal texts and their digits *)

Lemma digits_value_acc (d : Decimal.uint) (acc : positive) :
  fold_left (fun a c => a * 10 + digit_value c)%N
    (list_ascii_of_string (NilEmpty.string_of_uint d)) (Npos acc)
  = Npos (Pos.of_uint_acc d acc).
Proof.
  revert acc. induction d; intros acc; simpl; try reflexivity; rewrite <- IHd; f_equal;
    cbv [digit_value nat_of_ascii]; simpl; lia.
Qed.

Lemma digits_value_uint (d : Decimal.uint) :
  digits_value (list_ascii_of_string (NilEmpty.string_of_uint d)) = N.of_uint d.
Proof.
  unfold digits_value, N.of_uint.
  induction d; simpl; try reflexivity; try exact IHd; apply digits_value_acc.
Qed.

Lemma digits_value_decimal (n : N) :
  digits_value (list_ascii_of_string (decimal_of_N n)) = n.
Proof.
  unfold decimal_of_N, NilZero.string_of_uint.
  rewrite <- (DecimalN.Unsigned.of_to n) at 2.
  destruct (N.to_uint n) eqn:E; try (rewrite <- E at 1; rewrite <- digits_value_uint; rewrite E; reflexivity).
Qed.

(** *** Texts of digits *)

Lemma digit_facts (c : ascii) :
  is_digit c = true ->
  is_space c = false /\ is_char c "_" = false /\ is_char c "-" = false /\
  is_char c "+" = false /\ is_char c "." = false /\ to_lower c = c /\
  Ascii.eqb c "i" = false /\ Ascii.eqb c "n" = false.
Proof. destruct c as [[] [] [] [] [] [] [] []]; try discriminate; intros _; repeat split. Qed.

(** *** Doubles that are integers below 2^53 *)

Lemma shift_value (p : positive) (j : nat) :
  Zpos (Nat.iter j xO p) = Zpos p * 2 ^ Z.of_nat j.
Proof.
  induction j as [|j IH]; [simpl; lia|].
  rewrite Nat2Z.inj_succ, Z.pow_succ_r by lia. cbn [Nat.iter nat_rect].
  rewrite Pos2Z.inj_xO. unfold Nat.iter in IH. rewrite IH. lia.
Qed.

Lemma shift_digits (p : positive) (j : nat) :
  Zpos (digits2_pos (Nat.iter j xO p)) = Zpos (digits2_pos p) + Z.of_nat j.
Proof.
  induction j as [|j IH]; [simpl; lia|].
  rewrite Nat2Z.inj_succ. cbn [Nat.iter nat_rect digits2_pos].
  rewrite Pos2Z.inj_succ. unfold Nat.iter in IH. rewrite IH. lia.
Qed.

Lemma digits_lower_bound (p : positive) : 2 ^ (Zpos (digits2_pos p) - 1) <= Zpos p.
Proof.
  induction p as [p IH|p IH|]; cbn [digits2_pos]; [| |simpl; lia];
    rewrite Pos2Z.inj_succ;
    replace (Z.succ (Zpos (digits2_pos p)) - 1) with (Z.succ (Zpos (digits2_pos p) - 1)) by lia;
    rewrite Z.pow_succ_r by lia; lia.
Qed.

Lemma digits_below (p : positive) : Zpos p < 2 ^ 53 -> Zpos (digits2_pos p) <= 53.
Proof.
  intros H. pose proof (digits_lower_bound p) as Hl.
  destruct (Z.le_gt_cases (Zpos (digits2_pos p)) 53) as [|Hgt]; [assumption|].
  assert (2 ^ 53 <= 2 ^ (Zpos (digits2_pos p) - 1)) by (apply Z.pow_le_mono_r; lia). lia.
Qed.

Lemma iter_pos_nat {A : Type} (f : A -> A) (q : positive) (x : A) :
  SpecFloat.iter_pos f q x = Nat.iter (Pos.to_nat q) f x.
Proof.
  revert x. induction q as [q IH|q IH|]; intros x; cbn [SpecFloat.iter_pos].
  - rewrite !IH, Pos2Nat.inj_xI. rewrite <- Nat.iter_add.
    replace (S (2 * Pos.to_nat q))%nat with (Pos.to_nat q + Pos.to_nat q + 1)%nat by lia.
    rewrite (Nat.iter_add (Pos.to_nat q + Pos.to_nat q) 1). reflexivity.
  - rewrite !IH, Pos2Nat.inj_xO. rewrite <- Nat.iter_add. f_equal. lia.
  - reflexivity.
Qed.

Lemma shr_nat (mrs : shr_record) (e : Z) (a : nat) :
  shr mrs e (Z.of_nat a) = (Nat.iter a shr_1 mrs, e + Z.of_nat a).
Proof.
  destruct a as [|a]; [simpl; f_equal; lia|].
  unfold shr. change (Z.of_nat (S a)) with (Zpos (Pos.of_succ_nat a)). cbv beta iota.
  by rewrite iter_pos_nat, SuccNat2Pos.id_succ.
Qed.

Lemma shr_exact (p : positive) (a : nat) :
  Nat.iter a shr_1 {| shr_m := Zpos (Nat.iter a xO p); shr_r := false; shr_s := false |}
  = {| shr_m := Zpos p; shr_r := false; shr_s := false |}.
Proof.
  induction a as [|a IH]; [reflexivity|].
  rewrite Nat.iter_succ_r. exact IH.
Qed.

Lemma shl_align_nat (p : positive) (t : nat) :
  shl_align p 0 (- Z.of_nat t) = (Nat.iter t xO p, - Z.of_nat t).
Proof.
  destruct t as [|t]; [reflexivity|]. unfold shl_align.
  change (- Z.of_nat (S t) - 0) with (Zneg (Pos.of_succ_nat t)). cbv beta iota.
  change (PosDef.Pos.iter xO p (Pos.of_succ_nat t)) with (Pos.iter xO p (Pos.of_succ_nat t)).
  by rewrite Pos2Nat.inj_iter, SuccNat2Pos.id_succ.
Qed.

(** A mantissa of at most 53 bits followed by zero bits, with the exponent
    that cancels them, rounds to itself, normalised. *)
Lemma binary_round_aux_exact (s : bool) (p : positive) (a : nat) :
  let t := Z.to_nat (53 - Zpos (digits2_pos p)) in
  Zpos (digits2_pos p) <= 53 ->
  binary_round_aux prec emax s (Zpos (Nat.iter (a + t) xO p)) (- Z.of_nat (a + t)) loc_Exact
  = S754_finite s (Nat.iter t xO p) (- Z.of_nat t).
Proof.
  intros t Hd. unfold binary_round_aux.
  assert (Hshift : shr_fexp prec emax (Zpos (Nat.iter (a + t) xO p)) (- Z.of_nat (a + t)) loc_Exact
                   = ({| shr_m := Zpos (Nat.iter t xO p); shr_r := false; shr_s := false |},
                      - Z.of_nat t)).
  { unfold shr_fexp, Zdigits2. rewrite shift_digits.
    replace (fexp prec emax (Zpos (digits2_pos p) + Z.of_nat (a + t) + - Z.of_nat (a + t))
             - - Z.of_nat (a + t)) with (Z.of_nat a)
      by (unfold fexp, emin, prec, emax; lia).
    rewrite shr_nat. cbn [shr_record_of_loc]. rewrite Nat.iter_add, shr_exact.
    f_equal. lia. }
  rewrite Hshift. cbn [shr_m loc_of_shr_record round_nearest_even].
  assert (Hstay : shr_fexp prec emax (Zpos (Nat.iter t xO p)) (- Z.of_nat t) loc_Exact
                  = ({| shr_m := Zpos (Nat.iter t xO p); shr_r := false; shr_s := false |},
                     - Z.of_nat t)).
  { unfold shr_fexp, Zdigits2. rewrite shift_digits.
    replace (fexp prec emax (Zpos (digits2_pos p) + Z.of_nat t + - Z.of_nat t)
             - - Z.of_nat t) with 0
      by (unfold fexp, emin, prec, emax; lia).
    reflexivity. }
  rewrite Hstay. cbn [shr_m].
  replace (- Z.of_nat t <=? emax - prec) with true; [reflexivity|].
  symmetry. apply Z.leb_le. unfold emax, prec. lia.
Qed.

Lemma round_half_even_exact (p : positive) (t : nat) :
  round_half_even (Nat.iter t xO p) (- Z.of_nat t) = Npos p.
Proof.
  unfold round_half_even. rewrite shift_value.
  destruct t as [|t].
  - simpl. f_equal. lia.
  - replace (0 <=? - Z.of_nat (S t)) with false by (symmetry; apply Z.leb_gt; lia).
    rewrite Z.opp_involutive.
    assert (H2 : 0 < 2 ^ Z.of_nat (S t)) by (apply Z.pow_pos_nonneg; lia).
    rewrite Z.div_mul, Z.mod_mul by lia.
    assert (Hc : (2 * 0 ?= 2 ^ Z.of_nat (S t)) = Lt) by (apply Z.compare_lt_iff; lia).
    rewrite Hc. reflexivity.
Qed.

(** The double of [n * 10^k * 10^-k] prints as [n], when [n] is below 2^53. *)
Lemma format_0f_integer (n : N) (k : nat) :
  (n < 2 ^ 53)%N ->
  format_0f (float_of_decimal false (n * 10 ^ N.of_nat k) (- Z.of_nat k)) = decimal_of_N n.
Proof.
  intros Hn. destruct n as [|p]; [reflexivity|].
  assert (Hd : Zpos (digits2_pos p) <= 53).
  { apply digits_below. change (2 ^ 53) with (Z.of_N (2 ^ 53)). lia. }
  set (t := Z.to_nat (53 - Zpos (digits2_pos p))).
  assert (Hfloat : float_of_decimal false (Npos p * 10 ^ N.of_nat k) (- Z.of_nat k)
                   = S754_finite false (Nat.iter t xO p) (- Z.of_nat t)).
  { unfold float_of_decimal.
    destruct (Npos p * 10 ^ N.of_nat k)%N as [|P] eqn:HP; [lia|].
    assert (HPz : Zpos P = Zpos p * 10 ^ Z.of_nat k).
    { change (Zpos P) with (Z.of_N (Npos P)). rewrite <- HP. rewrite N2Z.inj_mul, N2Z.inj_pow.
      by rewrite nat_N_Z. }
    destruct k as [|k].
    - change (- Z.of_nat 0) with 0. cbn [Z.leb Z.compare].
      rewrite Z.pow_0_r, Z.mul_1_r in *. injection HPz as ->.
      unfold binary_round.
      replace (fexp prec emax (Zpos (digits2_pos p) + 0)) with (- Z.of_nat t)
        by (unfold fexp, emin, prec, emax; lia).
      rewrite shl_align_nat. exact (binary_round_aux_exact false p 0 Hd).
    - replace (0 <=? - Z.of_nat (S k)) with false by (symmetry; apply Z.leb_gt; lia).
      rewrite Z.opp_involutive. cbv zeta.
      assert (H10 : 0 < 10 ^ Z.of_nat (S k)) by (apply Z.pow_pos_nonneg; lia).
      set (sh := 64 + 4 * Z.of_nat (S k)).
      replace (Zpos P * 2 ^ sh) with (Zpos p * 2 ^ sh * 10 ^ Z.of_nat (S k)) by (rewrite HPz; ring).
      rewrite Z.div_mul, Z.mod_mul by lia. cbn [Z.eqb].
      replace sh with (Z.of_nat (Z.to_nat sh - t + t)) by lia.
      rewrite <- shift_value.
      exact (binary_round_aux_exact false p (Z.to_nat sh - t) Hd). }
  rewrite Hfloat. unfold format_0f. by rewrite round_half_even_exact.
Qed.

Lemma plain_facts (c : ascii) :
  plain c = true -> is_space c = false /\ is_char c "_" = false.
Proof. destruct c as [[] [] [] [] [] [] [] []]; try discriminate; by split. Qed.

Lemma lstrip_plain (l : list ascii) : forallb plain l = true -> lstrip l = l.
Proof.
  destruct l as [|c l]; [reflexivity|]. simpl. intros H. apply andb_prop in H as [Hc _].
  apply plain_facts in Hc as (-> & _). reflexivity.
Qed.

Lemma strip_plain (l : list ascii) : forallb plain l = true -> strip l = l.
Proof.
  intros H. unfold strip. rewrite (lstrip_plain l H).
  rewrite lstrip_plain, rev_involutive; [reflexivity|].
  rewrite forallb_forall in *. intros c Hc. apply H. by apply in_rev.
Qed.

Lemma underscores_ok_plain (prev : ascii) (l : list ascii) :
  is_char prev "_" = false -> forallb plain l = true -> underscores_ok prev l = true.
Proof.
  revert prev. induction l as [|c l IH]; intros prev Hprev H; simpl.
  - by rewrite Hprev.
  - simpl in H. apply andb_prop in H as [Hc Hl].
    destruct (plain_facts c Hc) as [_ Hu]. rewrite Hu, Hprev. simpl. by apply IH.
Qed.

Lemma remove_underscores_plain (l : list ascii) :
  forallb plain l = true -> remove_underscores l = l.
Proof.
  unfold remove_underscores. induction l as [|c l IH]; simpl; [reflexivity|].
  intros H. apply andb_prop in H as [Hc Hl].
  destruct (plain_facts c Hc) as [_ ->]. simpl. by rewrite IH.
Qed.

Lemma span_digits_app (ds rest : list ascii) :
  forallb is_digit ds = true ->
  match rest with c :: _ => is_digit c = false | [] => True end ->
  span_digits (ds ++ rest) = (ds, rest).
Proof.
  intros Hds Hrest. induction ds as [|c ds IH]; simpl.
  - destruct rest as [|c rest]; [reflexivity|]. simpl. by rewrite Hrest.
  - simpl in Hds. apply andb_prop in Hds as [-> Hds]. by rewrite IH.
Qed.

Lemma digits_plain (l : list ascii) : forallb is_digit l = true -> forallb plain l = true.
Proof.
  rewrite !forallb_forall. intros H c Hc. unfold plain. by rewrite (H c Hc).
Qed.

(** The float a text of digits, a point and digits stands for. *)
Lemma parse_float_point (c : ascii) (ds zs : list ascii) :
  forallb is_digit (c :: ds) = true -> forallb is_digit zs = true ->
  parse_float ((c :: ds) ++ "."%char :: zs)
  = Some (float_of_decimal false (digits_value ((c :: ds) ++ zs))
            (0 - Z.of_nat (length zs))).
Proof.
  intros Hds Hzs.
  assert (Hplain : forallb plain ((c :: ds) ++ "."%char :: zs) = true).
  { rewrite forallb_app. rewrite (digits_plain _ Hds). simpl. by rewrite (digits_plain _ Hzs). }
  unfold parse_float. rewrite (strip_plain _ Hplain).
  rewrite (underscores_ok_plain "000"%char _ eq_refl Hplain), (remove_underscores_plain _ Hplain).
  pose proof Hds as Hc. simpl in Hc. apply andb_prop in Hc as [Hc _].
  destruct (digit_facts c Hc) as (_ & _ & Hm & Hp & _ & Hlow & Hi & Hn).
  cbn [app split_sign]. rewrite Hm, Hp.
  cbn [lower_string List.map string_of_list_ascii String.eqb]. rewrite Hlow, Hi, Hn.
  cbn [andb orb]. unfold parse_decimal.
  change (c :: ds ++ "."%char :: zs) with ((c :: ds) ++ "."%char :: zs).
  rewrite (span_digits_app (c :: ds) ("."%char :: zs) Hds eq_refl).
  change (is_char "." ".") with true. cbv iota.
  rewrite <- (app_nil_r zs) at 1. rewrite (span_digits_app zs [] Hzs I).
  reflexivity.
Qed.


Lemma digits_value_app_zeros (ds : list ascii) (k : nat) :
  digits_value (ds ++ repeat "0"%char k) = (digits_value ds * 10 ^ N.of_nat k)%N.
Proof.
  unfold digits_value. rewrite fold_left_app.
  generalize (fold_left (fun acc c => acc * 10 + digit_value c)%N ds 0%N). intros a.
  revert a. induction k as [|k IH]; intros a.
  - simpl. lia.
  - cbn [repeat fold_left]. rewrite IH. change (digit_value "0") with 0%N.
    rewrite Nat2N.inj_succ, N.pow_succ_r'. lia.
Qed.

Lemma zeros_digits (k : nat) : forallb is_digit (repeat "0"%char k) = true.
Proof. induction k; simpl; [reflexivity|assumption]. Qed.

Lemma nonempty_truthy (s : string) (c : ascii) (l : list ascii) :
  list_ascii_of_string s = c :: l -> negb (String.eqb s EmptyString) = true.
Proof. by destruct s. Qed.


(** X2. A decimal integer below 2^53 followed by a point and any number of
    zeros, the shape a spreadsheet gives an identifier, is normalised to the
    integer alone. *)
Theorem trailing_zero_fraction_removed (n : N) (k : nat) :
  (n < 2 ^ 53)%N ->
  format_item_number (PyStr (decimal_of_N n +:+ "." +:+ zeros k)) = Ok (decimal_of_N n).
Proof.
  intros Hn. destruct (decimal_of_N_digits n) as (c & ds & Hl & Hds).
  assert (Htext : list_ascii_of_string (decimal_of_N n +:+ "." +:+ zeros k)
                  = (c :: ds) ++ "."%char :: repeat "0"%char k).
  { rewrite list_ascii_of_append, Hl. f_equal.
    change ("." +:+ zeros k) with (String "." (zeros k)). cbn [list_ascii_of_string].
    unfold zeros. by rewrite list_ascii_of_string_of_list_ascii. }
  unfold format_item_number, truthy. rewrite (nonempty_truthy _ _ _ Htext).
  unfold py_float, float_of_string. rewrite Htext.
  rewrite (parse_float_point c ds _ Hds (zeros_digits k)). cbn [mbind result_bind].
  rewrite digits_value_app_zeros, <- Hl, digits_value_decimal, repeat_length.
  change (0 - Z.of_nat k) with (- Z.of_nat k).
  by rewrite (format_0f_integer n k Hn).
Qed.

Lemma lstrip_blank_prefix (pre l : list ascii) :
  forallb is_space pre = true -> lstrip (pre ++ l) = lstrip l.
Proof.
  induction pre as [|c pre IH]; [reflexivity|]. simpl. intros H.
  apply andb_prop in H as [-> H]. by apply IH.
Qed.

Lemma lstrip_blank_suffix (l post : list ascii) :
  forallb is_space post = true ->
  lstrip (l ++ post) = match lstrip l with [] => [] | _ :: _ => lstrip l ++ post end.
Proof.
  intros Hpost. induction l as [|c l IH]; simpl.
  - rewrite <- (app_nil_r post). by rewrite lstrip_blank_prefix.
  - destruct (is_space c); [exact IH|reflexivity].
Qed.

Lemma strip_blanks (pre l post : list ascii) :
  forallb is_space pre = true -> forallb is_space post = true ->
  strip (pre ++ l ++ post) = strip l.
Proof.
  intros Hpre Hpost. unfold strip.
  rewrite (lstrip_blank_prefix _ _ Hpre), (lstrip_blank_suffix _ _ Hpost).
  destruct (lstrip l) as [|c k]; [reflexivity|].
  rewrite rev_app_distr, lstrip_blank_prefix; [reflexivity|].
  rewrite forallb_forall in *. intros x Hx. apply Hpost. by apply in_rev.
Qed.

Lemma parse_float_blanks (pre l post : list ascii) :
  forallb is_space pre = true -> forallb is_space post = true ->
  parse_float (pre ++ l ++ post) = parse_float l.
Proof. intros Hpre Hpost. unfold parse_float. by rewrite strip_blanks. Qed.

Lemma format_item_number_text (s : string) (out : string) :
  s <> EmptyString ->
  format_item_number (PyStr s) = Ok out <->
  exists x, parse_float (list_ascii_of_string s) = Some x /\ out = format_0f x.
Proof.
  intros Hs. unfold format_item_number, truthy.
  destruct (String.eqb_spec s EmptyString) as [|_]; [contradiction|]. cbn [negb].
  unfold py_float, float_of_string.
  destruct (parse_float (list_ascii_of_string s)) as [x|]; simpl.
  - split; [intros [= <-]; by exists x|intros (y & [= <-] & ->); reflexivity].
  - split; [discriminate|intros (y & [=] & _)].
Qed.

(** X3. Blanks before and after an item number that is not empty do not
    change what it is normalised to. *)
Theorem surrounding_blanks_ignored (pre s post out : string) :
  is_blank pre = true -> is_blank post = true -> s <> EmptyString ->
  format_item_number (PyStr s) = Ok out ->
  format_item_number (PyStr (pre +:+ s +:+ post)) = Ok out.
Proof.
  intros Hpre Hpost Hs Hout.
  apply (format_item_number_text s out Hs) in Hout as (x & Hx & ->).
  apply format_item_number_text.
  - destruct pre; [|discriminate]. destruct s; [contradiction|discriminate].
  - exists x. split; [|reflexivity].
    rewrite !list_ascii_of_append. by rewrite parse_float_blanks.
Qed.


(** *** The loader, the processing step and the script *)

Section Coverage.

Context (file : Type).
Context (pd_read_csv :
  file -> list (string * dtype) -> string -> option nat -> result DataFrame).
Context (pd_to_datetime : list pyval -> list (option Z)).

Local Abbreviation read_csv_filtered := (read_csv_filtered file pd_read_csv).
Local Abbreviation process_ebay_data := (process_ebay_data file pd_read_csv pd_to_datetime).
Local Abbreviation script := (script file pd_read_csv pd_to_datetime).
Local Abbreviation read_orders := (read_orders file pd_read_csv).
Local Abbreviation read_listings := (read_listings file pd_read_csv).
Local Abbreviation order_records := (order_records pd_to_datetime).
Local Abbreviation listing_records := (listing_records pd_to_datetime).

(** X5. [read_csv_filtered] never raises and never touches the session. It
    returns a frame only when the file was read and holds every expected
    column, and then shows nothing; otherwise it returns [None] and shows
    exactly one message, and a file that was read lacks an expected column. *)
Theorem read_csv_filtered_contract (f : file) (expected : list string)
    (dt : list (string * dtype)) (delimiter : string) (skiprows : option nat) (s : state) :
  exists (r : option DataFrame) (s' : state),
    read_csv_filtered f expected dt delimiter skiprows s = (Ok r, s') /\
    session_state s' = session_state s /\
    match r with
    | Some df =>
        s' = s /\ pd_read_csv f dt delimiter skiprows = Ok df /\
        forall c, c ∈ expected -> c ∈ columns df
    | None =>
        (exists msg, errors s' = errors s ++ [msg]) /\
        forall df, pd_read_csv f dt delimiter skiprows = Ok df ->
                   exists c, c ∈ expected /\ c ∉ columns df
    end.
Proof.
  rewrite read_csv_filtered_unfold.
  destruct (pd_read_csv f dt delimiter skiprows) as [df|e].
  - destruct (missing_columns expected df) as [|c rest] eqn:Hm.
    + exists (Some df), s. do 2 (split; [reflexivity|]). split; [reflexivity|].
      split; [reflexivity|]. by apply missing_columns_nil.
    + eexists None, _. split; [reflexivity|]. split; [reflexivity|]. split; [by eexists|].
      intros df' [= <-]. exists c.
      assert (Hc : In c (missing_columns expected df)) by (rewrite Hm; by left).
      unfold missing_columns in Hc. apply filter_In in Hc as [Hin Hnot].
      split; [by apply list_elem_of_In|].
      apply negb_true_iff in Hnot. by apply bool_decide_eq_false in Hnot.
  - eexists None, _. split; [reflexivity|]. split; [reflexivity|]. split; [by eexists|].
    intros df [=].
Qed.

(** X6. A run of [process_ebay_data] ends in one of three ways: no frame at
    all and exactly one message; two frames and no message; an exception and
    no message. It never returns one frame without the other. *)
Theorem process_ebay_data_outcomes (listing_file order_file : file) (now : Z) (s : state) :
  (exists msg, process_ebay_data listing_file order_file now s
                = (Ok (None, None), add_error s msg)) \/
  (exists sold_df unsold_df,
     process_ebay_data listing_file order_file now s
     = (Ok (Some sold_df, Some unsold_df), s)) \/
  (exists e, process_ebay_data listing_file order_file now s = (Raise e, s)).
Proof.
  rewrite process_ebay_data_unfold.
  destruct (read_orders order_file) as [odf|e]; [|left; by eexists].
  destruct (missing_columns expected_order_columns odf); [|left; by eexists].
  destruct (Main.prepare_orders pd_to_datetime odf) as [od|e]; [|right; right; by eexists].
  destruct (read_listings listing_file) as [ldf|e]; [|left; by eexists].
  destruct (missing_columns expected_listing_columns ldf); [|left; by eexists].
  destruct (_ ≫= _) as [[a b]|e].
  - right; left. by do 2 eexists.
  - right; right. by eexists.
Qed.

(** X7. When the order file cannot be read, the run shows the reading
    error and returns no frame, whatever the listing file is: that file is
    not looked at. When the listing file cannot be read after the order file
    went through, the run shows its reading error and returns no frame. *)
Theorem unreadable_file_reported (listing_file order_file : file) (now : Z) (s : state) :
  (forall e, read_orders order_file = Raise e ->
     forall other_listing_file : file,
       process_ebay_data other_listing_file order_file now s
       = (Ok (None, None), add_error s ("Error reading the CSV file: " +:+ exn_msg e))) /\
  (forall odf orders e,
     read_orders order_file = Ok odf -> order_records odf = Ok orders ->
     read_listings listing_file = Raise e ->
     process_ebay_data listing_file order_file now s
     = (Ok (None, None), add_error s ("Error reading the CSV file: " +:+ exn_msg e))).
Proof.
  split.
  - intros e He other. by rewrite process_ebay_data_unfold, He.
  - intros odf orders e Hro Ho Hrl.
    rewrite process_ebay_data_unfold, Hro, (order_records_columns _ _ _ Ho).
    destruct (prepare_orders_spec _ _ _ Ho) as (od & -> & _). by rewrite Hrl.
Qed.




Lemma positive_quantity_number (q : pyval) : positive_quantity q = is_positive_number q.
Proof.
  unfold positive_quantity. destruct q as [| | z |[[]|[]| |[] m e]| |]; simpl; try reflexivity.
  by destruct (0 <? z).
Qed.

Lemma filter_sublist {A : Type} (p : A -> bool) (l : list A) : sublist (List.filter p l) l.
Proof. induction l as [|x l IH]; simpl; [constructor|]. destruct (p x); by constructor. Qed.

(** X9. The listings behind the Unsold frame are listings of the file, in
    file order, and each has a number strictly above zero as quantity: a
    missing quantity (NaN), a zero or a negative one keeps a listing out. *)
Theorem unsold_quantities_positive (listing_file order_file : file) (now : Z)
    (s s' : state) (sold_df unsold_df odf ldf : DataFrame) (orders : list order_record)
    (listings : list listing_record) :
  process_ebay_data listing_file order_file now s = (Ok (Some sold_df, Some unsold_df), s') ->
  read_orders order_file = Ok odf -> order_records odf = Ok orders ->
  read_listings listing_file = Ok ldf -> listing_records ldf = Ok listings ->
  exists kept : list listing_record,
    column_values unsold_df "Unsold Item Numbers"
      = List.map (fun l => PyStr (l_item l)) kept /\
    sublist kept listings /\
    forall l, l ∈ kept -> is_positive_number (l_available_quantity l) = true.
Proof.
  intros Hrun Hro Ho Hrl Hl.
  destruct (process_ebay_data_result _ _ _ _ _ _ _ _ _ _ _ _ _ _ Hrun Hro Ho Hrl Hl)
    as (_ & -> & _).
  eexists. split; [reflexivity|]. split.
  - apply filter_sublist.
  - intros l Hin. apply list_elem_of_In, filter_In in Hin as [_ Hq].
    unfold qualifies in Hq. apply andb_prop in Hq as [Hq _]. apply andb_prop in Hq as [_ Hq].
    by rewrite <- positive_quantity_number.
Qed.

Lemma getcol_column_values (df : DataFrame) (c : string) (col : list pyval) :
  getcol df c = Ok col -> column_values df c = col.
Proof.
  intros H. apply getcol_Ok in H as [_ H]. unfold column_values.
  induction H as [|r v rs col Hr _ IH]; [reflexivity|].
  cbn [omap list_omap]. rewrite Hr. f_equal. exact IH.
Qed.

Lemma normalised_from_column (col : list pyval) (items : list string) (i : string) :
  map_result format_item_number col = Ok items -> i ∈ items ->
  exists raw, raw ∈ col /\ format_item_number raw = Ok i.
Proof.
  intros H. apply map_result_Ok in H.
  induction H as [|raw j col items Hj _ IH]; intros Hi; [inversion Hi|].
  apply elem_of_cons in Hi as [->|Hi].
  - exists raw. split; [by left|exact Hj].
  - destruct (IH Hi) as (raw' & Hin & Hraw'). exists raw'. split; [by right|exact Hraw'].
Qed.

Lemma order_items_normalised (df : DataFrame) (orders : list order_record)
    (o : order_record) :
  order_records df = Ok orders -> o ∈ orders ->
  exists raw, raw ∈ column_values df "Item number" /\
              format_item_number raw = Ok (o_item o).
Proof.
  intros H Ho.
  apply order_records_Ok in H as (raw & items & dates & Hraw & Hitems & _ & _ & ->).
  rewrite (getcol_column_values _ _ _ Hraw).
  apply (normalised_from_column _ items); [exact Hitems|].
  clear Hitems. revert Ho. generalize (pd_to_datetime dates). intros parsed.
  revert parsed. induction items as [|i items IH]; intros [|d parsed] Ho;
    try (by inversion Ho).
  cbn [zip_with] in Ho. apply elem_of_cons in Ho as [->|Ho]; [by left|].
  right. by eapply IH.
Qed.

Lemma listing_items_normalised (df : DataFrame) (listings : list listing_record)
    (l : listing_record) :
  listing_records df = Ok listings -> l ∈ listings ->
  exists raw, raw ∈ column_values df "Item number" /\
              format_item_number raw = Ok (l_item l).
Proof.
  intros H Hl.
  apply listing_records_Ok in H
    as (raw & items & quantities & dates & Hraw & Hitems & _ & _ & _ & ->).
  rewrite (getcol_column_values _ _ _ Hraw).
  apply (normalised_from_column _ items); [exact Hitems|].
  clear Hitems. revert Hl. generalize (pd_to_datetime dates). intros parsed.
  revert quantities parsed.
  induction items as [|i items IH]; intros [|q quantities] [|d parsed] Hl;
    try (by inversion Hl).
  cbn [zip zip_with] in Hl. apply elem_of_cons in Hl as [->|Hl]; [by left|].
  right. by eapply IH.
Qed.

Lemma format_item_number_no_point (v : pyval) (out : string) :
  format_item_number v = Ok out -> has_decimal_point out = false.
Proof.
  unfold format_item_number. destruct (truthy v); [|by intros [= <-]].
  destruct (py_float v) as [x|e]; [|discriminate]. simpl. intros [= <-].
  apply format_0f_no_point.
Qed.

(** X10. Every entry of the Sold frame is the normal form of an
    [Item number] cell of the order file, every entry of the Unsold frame
    that of a cell of the listing file, and none holds a decimal point. *)
Theorem outputs_are_normalised (listing_file order_file : file) (now : Z)
    (s s' : state) (sold_df unsold_df odf ldf : DataFrame) :
  process_ebay_data listing_file order_file now s = (Ok (Some sold_df, Some unsold_df), s') ->
  read_orders order_file = Ok odf -> read_listings listing_file = Ok ldf ->
  (forall v, v ∈ column_values sold_df "Sold Item Numbers" ->
     exists (raw : pyval) (item : string),
       v = PyStr item /\ raw ∈ column_values odf "Item number" /\
       format_item_number raw = Ok item /\ has_decimal_point item = false) /\
  (forall v, v ∈ column_values unsold_df "Unsold Item Numbers" ->
     exists (raw : pyval) (item : string),
       v = PyStr item /\ raw ∈ column_values ldf "Item number" /\
       format_item_number raw = Ok item /\ has_decimal_point item = false).
Proof.
  intros Hrun Hro Hrl.
  destruct (process_ebay_data_sound _ _ _ _ _ _ _ _ _ _ Hrun)
    as (odf' & ldf' & orders & listings & Hro' & Ho & Hrl' & Hl & _).
  rewrite Hro in Hro'. injection Hro' as <-. rewrite Hrl in Hrl'. injection Hrl' as <-.
  destruct (process_ebay_data_result _ _ _ _ _ _ _ _ _ _ _ _ _ _ Hrun Hro Ho Hrl Hl)
    as (-> & -> & _).
  split.
  - intros v. rewrite elem_of_elements, elem_of_sold_set. intros (o & Hin & -> & _).
    destruct (order_items_normalised _ _ _ Ho Hin) as (raw & Hraw & Hfmt).
    exists raw, (o_item o). do 3 (split; [done|]). by eapply format_item_number_no_point.
  - intros v. rewrite elem_of_unsold_seq. intros (l & Hin & -> & _).
    destruct (listing_items_normalised _ _ _ Hl Hin) as (raw & Hraw & Hfmt).
    exists raw, (l_item l). do 3 (split; [done|]). by eapply format_item_number_no_point.
Qed.

(** X11. When no order has a sale date after the cutoff, as with an order
    file without rows, the Sold frame is empty and the Unsold frame lists
    every listing with a positive quantity that started before the cutoff. *)
Theorem no_recent_sale (listing_file order_file : file) (now : Z)
    (s s' : state) (sold_df unsold_df odf ldf : DataFrame) (orders : list order_record)
    (listings : list listing_record) :
  process_ebay_data listing_file order_file now s = (Ok (Some sold_df, Some unsold_df), s') ->
  read_orders order_file = Ok odf -> order_records odf = Ok orders ->
  read_listings listing_file = Ok ldf -> listing_records ldf = Ok listings ->
  List.filter (is_recent (now - timedelta_days 60)) orders = [] ->
  column_values sold_df "Sold Item Numbers" = [] /\
  column_values unsold_df "Unsold Item Numbers"
  = List.map (fun l => PyStr (l_item l))
      (List.filter
         (fun l => positive_quantity (l_available_quantity l)
                   && started_before (now - timedelta_days 60) (l_start_date l))
         listings).
Proof.
  intros Hrun Hro Ho Hrl Hl Hnone.
  destruct (process_ebay_data_result _ _ _ _ _ _ _ _ _ _ _ _ _ _ Hrun Hro Ho Hrl Hl)
    as (-> & -> & _).
  unfold unsold_seq, sold_set. rewrite Hnone. cbn [List.map list_to_set].
  split; [apply elements_empty|].
  assert (Hq : forall l,
             qualifies (now - timedelta_days 60) ∅ l
             = positive_quantity (l_available_quantity l)
               && started_before (now - timedelta_days 60) (l_start_date l)).
  { intros l. unfold qualifies. by rewrite bool_decide_true by set_solver. }
  by rewrite (filter_ext _ _ Hq).
Qed.

(** X12. On the same two files, a later run has no item in its Sold frame
    that an earlier run did not have, and keeps in its Unsold frame every
    item the earlier run had there. *)
Theorem later_run_sold_shrinks (listing_file order_file : file) (now now' : Z)
    (s1 s1' s2 s2' : state) (sold_df unsold_df sold_df' unsold_df' : DataFrame) :
  process_ebay_data listing_file order_file now s1
    = (Ok (Some sold_df, Some unsold_df), s1') ->
  process_ebay_data listing_file order_file now' s2
    = (Ok (Some sold_df', Some unsold_df'), s2') ->
  now <= now' ->
  (forall v, v ∈ column_values sold_df' "Sold Item Numbers" ->
             v ∈ column_values sold_df "Sold Item Numbers") /\
  (forall v, v ∈ column_values unsold_df "Unsold Item Numbers" ->
             v ∈ column_values unsold_df' "Unsold Item Numbers").
Proof.
  intros Hrun Hrun' Hle.
  destruct (process_ebay_data_sound _ _ _ _ _ _ _ _ _ _ Hrun)
    as (odf & ldf & orders & listings & Hro & Ho & Hrl & Hl & _).
  destruct (process_ebay_data_result _ _ _ _ _ _ _ _ _ _ _ _ _ _ Hrun Hro Ho Hrl Hl)
    as (-> & -> & _).
  destruct (process_ebay_data_result _ _ _ _ _ _ _ _ _ _ _ _ _ _ Hrun' Hro Ho Hrl Hl)
    as (-> & -> & _).
  assert (Hsold : forall v, v ∈ sold_set (now' - timedelta_days 60) orders ->
                            v ∈ sold_set (now - timedelta_days 60) orders).
  { intros v. rewrite !elem_of_sold_set. intros (o & Hin & -> & Hr).
    exists o. do 2 (split; [done|]). unfold is_recent in *.
    destruct (o_sale_date o) as [t|]; [|discriminate].
    apply Z.ltb_lt in Hr. apply Z.ltb_lt. lia. }
  split.
  - intros v. rewrite !elem_of_elements. apply Hsold.
  - intros v. rewrite !elem_of_unsold_seq. intros (l & Hin & -> & Hq).
    exists l. do 2 (split; [done|]). unfold qualifies in *.
    apply andb_prop in Hq as [Hq Hd]. apply andb_prop in Hq as [Hs Hp].
    rewrite Hp. apply bool_decide_eq_true in Hs.
    rewrite bool_decide_true by (intros Hn; apply Hs, Hsold, Hn). simpl.
    unfold started_before in *. destruct (l_start_date l) as [t|]; [|discriminate].
    apply Z.ltb_lt in Hd. apply Z.ltb_lt. lia.
Qed.

Lemma process_ebay_data_messages (listing_file order_file : file) (now : Z) :
  exists (r : result (option DataFrame * option DataFrame)) (msgs : list string),
    (length msgs <= 1)%nat /\
    forall s : state,
      process_ebay_data listing_file order_file now s
      = (r, {| errors := errors s ++ msgs; session_state := session_state s |}).
Proof.
  assert (Hid : forall (A : Type) (r : result A) (s : state),
             (r, s)
             = (r, {| errors := errors s ++ []; session_state := session_state s |})).
  { intros A r [errs sess]. simpl. by rewrite app_nil_r. }
  setoid_rewrite process_ebay_data_unfold.
  destruct (read_orders order_file) as [odf|e];
    [|eexists _, [_]; split; [simpl; lia|reflexivity]].
  destruct (missing_columns expected_order_columns odf);
    [|eexists _, [_]; split; [simpl; lia|reflexivity]].
  destruct (Main.prepare_orders pd_to_datetime odf) as [od|e];
    [|exists (Raise e), []; split; [simpl; lia|apply Hid]].
  destruct (read_listings listing_file) as [ldf|e];
    [|eexists _, [_]; split; [simpl; lia|reflexivity]].
  destruct (missing_columns expected_listing_columns ldf);
    [|eexists _, [_]; split; [simpl; lia|reflexivity]].
  destruct (_ ≫= _) as [[a b]|e].
  - exists (Ok (Some a, Some b)), []. split; [simpl; lia|apply Hid].
  - exists (Raise e), []. split; [simpl; lia|apply Hid].
Qed.

Lemma session_init_frame (k : string) (s : state) :
  exists s1 : state,
    session_init k s = (Ok (), s1) /\ errors s1 = errors s /\
    (forall k', stored k' s1 = stored k' s) /\
    (forall k', k' <> k -> session_state s1 !! k' = session_state s !! k') /\
    is_Some (session_state s1 !! k) /\
    (forall k', is_Some (session_state s !! k') -> is_Some (session_state s1 !! k')).
Proof.
  unfold session_init. destruct (session_state s !! k) as [v|] eqn:Hk.
  - exists s. rewrite Hk. by repeat split.
  - eexists. split; [reflexivity|]. split; [reflexivity|]. simpl. split; [|split; [|split]].
    + intros k'. unfold stored. simpl. destruct (decide (k = k')) as [->|Hne].
      * by rewrite lookup_insert_eq, Hk.
      * by rewrite lookup_insert_ne.
    + intros k' Hne. by rewrite lookup_insert_ne.
    + by rewrite lookup_insert_eq.
    + intros k' Hk'. destruct (decide (k = k')) as [->|Hne].
      * by rewrite lookup_insert_eq.
      * by rewrite lookup_insert_ne.
Qed.

(** The script as a case distinction on what the processing step did, from
    the state [s2] the two initialisations leave. *)
Lemma script_shape (listing_file order_file : option file) (clicked : bool) (now : Z)
    (s : state) :
  exists s2 : state,
    errors s2 = errors s /\
    (forall k, stored k s2 = stored k s) /\
    (forall k, k <> "sold_df" -> k <> "unsold_df" ->
               session_state s2 !! k = session_state s !! k) /\
    is_Some (session_state s2 !! "sold_df") /\
    is_Some (session_state s2 !! "unsold_df") /\
    script listing_file order_file clicked now s =
    match listing_file, order_file with
    | Some lf, Some ofile =>
        if clicked then
          match process_ebay_data lf ofile now s2 with
          | (Ok (Some sold_df, Some unsold_df), s3) =>
              (Ok (), {| errors := errors s3;
                         session_state := <["unsold_df" := Some unsold_df]>
                                            (<["sold_df" := Some sold_df]>
                                               (session_state s3)) |})
          | (Ok _, s3) => (Ok (), s3)
          | (Raise e, s3) => (Raise e, s3)
          end
        else (Ok (), s2)
    | _, _ => (Ok (), s2)
    end.
Proof.
  destruct (session_init_frame "sold_df" s) as (s1 & H1 & He1 & Hs1 & Hf1 & Hk1 & Hp1).
  destruct (session_init_frame "unsold_df" s1) as (s2 & H2 & He2 & Hs2 & Hf2 & Hk2 & Hp2).
  exists s2. split; [congruence|]. split; [intros k; by rewrite Hs2, Hs1|].
  split; [intros k Hn1 Hn2; by rewrite Hf2, Hf1|]. split; [by apply Hp2|]. split; [exact Hk2|].
  unfold Main.script, mbind, M_bind. rewrite H1. cbv beta iota. rewrite H2. cbv beta iota.
  destruct listing_file as [lf|], order_file as [ofile|]; try reflexivity.
  destruct clicked; [|reflexivity].
  destruct (process_ebay_data lf ofile now s2) as [[[[a|] [b|]]|e] s3]; reflexivity.
Qed.

(** X13. Without both files, or without the button pressed, a run of the
    script succeeds, shows no message and leaves the stored results as they
    were. *)
Theorem idle_run_changes_nothing (listing_file order_file : option file) (clicked : bool)
    (now : Z) (s : state) :
  listing_file = None \/ order_file = None \/ clicked = false ->
  fst (script listing_file order_file clicked now s) = Ok () /\
  errors (snd (script listing_file order_file clicked now s)) = errors s /\
  forall k, stored k (snd (script listing_file order_file clicked now s)) = stored k s.
Proof.
  intros Hidle.
  destruct (script_shape listing_file order_file clicked now s)
    as (s2 & He & Hs & _ & _ & _ & ->).
  destruct listing_file as [lf|], order_file as [ofile|], clicked;
    try (by repeat split).
  destruct Hidle as [|[|]]; discriminate.
Qed.

(** X14. The two results are stored together: if the session holds both or
    neither before a run, it holds both or neither after it. *)
Theorem results_stored_together (listing_file order_file : option file) (clicked : bool)
    (now : Z) (s : state) :
  (stored "sold_df" s = None <-> stored "unsold_df" s = None) ->
  (stored "sold_df" (snd (script listing_file order_file clicked now s)) = None <->
   stored "unsold_df" (snd (script listing_file order_file clicked now s)) = None).
Proof.
  intros Hinv.
  destruct (script_shape listing_file order_file clicked now s)
    as (s2 & He & Hs & _ & _ & _ & ->).
  assert (Hsame : forall k msgs',
             stored k {| errors := msgs'; session_state := session_state s2 |} = stored k s).
  { intros k msgs'. transitivity (stored k s2); [reflexivity|]. apply Hs. }
  destruct listing_file as [lf|], order_file as [ofile|]; cbn [snd]; rewrite ?Hs; try exact Hinv.
  destruct clicked; cbn [snd]; rewrite ?Hs; try exact Hinv.
  destruct (process_ebay_data_messages lf ofile now) as (r & msgs & _ & Hrun).
  rewrite (Hrun s2).
  destruct r as [[[a|] [b|]]|e]; cbn [snd]; rewrite ?Hsame; try exact Hinv.
  unfold stored. cbn [session_state].
  rewrite lookup_insert_ne by discriminate. rewrite !lookup_insert_eq. by split.
Qed.

(** X15. The downloads are offered after a run exactly when they were
    offered before it or the run processed two files, on the button, into two
    frames: once offered they stay offered. *)
Theorem downloads_after_run (listing_file order_file : option file) (clicked : bool)
    (now : Z) (s : state) :
  downloads_offered (snd (script listing_file order_file clicked now s))
  = downloads_offered s
    || match listing_file, order_file with
       | Some lf, Some ofile => clicked && two_frames (fst (process_ebay_data lf ofile now s))
       | _, _ => false
       end.
Proof.
  destruct (script_shape listing_file order_file clicked now s)
    as (s2 & He & Hs & _ & _ & _ & ->).
  assert (Hoff : forall msgs',
             downloads_offered {| errors := msgs'; session_state := session_state s2 |}
             = downloads_offered s).
  { intros msgs'. unfold downloads_offered.
    change (stored "sold_df" {| errors := msgs'; session_state := session_state s2 |})
      with (stored "sold_df" s2).
    change (stored "unsold_df" {| errors := msgs'; session_state := session_state s2 |})
      with (stored "unsold_df" s2).
    by rewrite !Hs. }
  assert (Hoff2 : downloads_offered s2 = downloads_offered s).
  { unfold downloads_offered. by rewrite !Hs. }
  destruct listing_file as [lf|], order_file as [ofile|]; cbn [snd];
    rewrite ?Hoff2, ?orb_false_r; try reflexivity.
  destruct clicked; cbn [snd andb]; rewrite ?Hoff2, ?orb_false_r; try reflexivity.
  destruct (process_ebay_data_messages lf ofile now) as (r & msgs & _ & Hrun).
  rewrite (Hrun s2), (Hrun s). cbn [fst].
  destruct r as [[[a|] [b|]]|e]; cbn [snd two_frames]; rewrite ?Hoff, ?orb_false_r;
    try reflexivity.
  unfold downloads_offered at 1, stored. cbn [session_state].
  rewrite lookup_insert_ne by discriminate. rewrite !lookup_insert_eq. cbn.
  by rewrite orb_true_r.
Qed.

(** X16. A run of the script writes no session key but [sold_df] and
    [unsold_df], leaves both keys set, and adds at most one message to the
    messages shown. *)
Theorem script_touches_two_keys (listing_file order_file : option file) (clicked : bool)
    (now : Z) (s : state) :
  let s' := snd (script listing_file order_file clicked now s) in
  (forall k, k <> "sold_df" -> k <> "unsold_df" ->
             session_state s' !! k = session_state s !! k) /\
  is_Some (session_state s' !! "sold_df") /\
  is_Some (session_state s' !! "unsold_df") /\
  exists msgs : list string, errors s' = errors s ++ msgs /\ (length msgs <= 1)%nat.
Proof.
  cbv zeta.
  destruct (script_shape listing_file order_file clicked now s)
    as (s2 & He & _ & Hf & Hk1 & Hk2 & ->).
  assert (Hidle : (forall k, k <> "sold_df" -> k <> "unsold_df" ->
                     session_state s2 !! k = session_state s !! k) /\
                  is_Some (session_state s2 !! "sold_df") /\
                  is_Some (session_state s2 !! "unsold_df") /\
                  exists msgs : list string,
                    errors s2 = errors s ++ msgs /\ (length msgs <= 1)%nat).
  { do 3 (split; [assumption|]). exists []. rewrite app_nil_r. split; [exact He|simpl; lia]. }
  destruct listing_file as [lf|], order_file as [ofile|]; cbn [snd]; try exact Hidle.
  destruct clicked; cbn [snd]; try exact Hidle.
  destruct (process_ebay_data_messages lf ofile now) as (r & msgs & Hlen & Hrun).
  rewrite (Hrun s2).
  destruct r as [[[a|] [b|]]|e]; cbn [snd session_state errors];
    try (do 3 (split; [assumption|]); exists msgs; by rewrite He).
  split; [|split; [|split]].
  - intros k Hn1 Hn2. rewrite !lookup_insert_ne by done. by apply Hf.
  - rewrite lookup_insert_ne by discriminate. by rewrite lookup_insert_eq.
  - by rewrite lookup_insert_eq.
  - exists msgs. by rewrite He.
Qed.

End Coverage.

(** *** These properties on the small instance *)


Lemma trailing_zero_fraction_removed_witness :
  format_item_number (PyStr (decimal_of_N 123456789 +:+ "." +:+ zeros 2))
  = Ok (decimal_of_N 123456789).
Proof. apply trailing_zero_fraction_removed. reflexivity. Defined.

(** Above 2^53 an identifier need not survive: this one comes back even. *)
Example large_item_number_changed :
  format_item_number (PyStr "9007199254740993") = Ok "9007199254740992".
Proof. run. Qed.

Lemma surrounding_blanks_ignored_witness :
  format_item_number (PyStr (" " +:+ "200.0" +:+ "  ")) = Ok "200".
Proof.
  apply surrounding_blanks_ignored; [reflexivity|reflexivity|discriminate|run].
Defined.


Lemma unreadable_file_reported_witness :
  (forall other_listing_file : toy_file,
     toy_process other_listing_file unreadable_file toy_now empty_state
     = (Ok (None, None),
        add_error empty_state
          ("Error reading the CSV file: " +:+ "No columns to parse from file"))) /\
  toy_process unreadable_file toy_orders toy_now empty_state
  = (Ok (None, None),
     add_error empty_state
       ("Error reading the CSV file: " +:+ "No columns to parse from file")).
Proof.
  split.
  - refine (proj1 (unreadable_file_reported toy_file toy_read_csv toy_to_datetime
                     toy_listings unreadable_file toy_now empty_state) _ eq_refl).
  - refine (proj2 (unreadable_file_reported toy_file toy_read_csv toy_to_datetime
                     unreadable_file toy_orders toy_now empty_state)
              toy_order_data toy_order_records _ eq_refl _ eq_refl).
    run.
Defined.


Lemma unsold_quantities_positive_witness :
  exists kept : list listing_record,
    column_values toy_unsold_df "Unsold Item Numbers"
      = List.map (fun l => PyStr (l_item l)) kept /\
    sublist kept toy_listing_records /\
    forall l, l ∈ kept -> is_positive_number (l_available_quantity l) = true.
Proof.
  apply (unsold_quantities_positive toy_file toy_read_csv toy_to_datetime
           toy_listings toy_orders toy_now empty_state empty_state
           toy_sold_df toy_unsold_df toy_order_data toy_listing_data toy_order_records); run.
Defined.

Lemma outputs_are_normalised_witness :
  (forall v, v ∈ column_values toy_sold_df "Sold Item Numbers" ->
     exists (raw : pyval) (item : string),
       v = PyStr item /\ raw ∈ column_values toy_order_data "Item number" /\
       format_item_number raw = Ok item /\ has_decimal_point item = false) /\
  (forall v, v ∈ column_values toy_unsold_df "Unsold Item Numbers" ->
     exists (raw : pyval) (item : string),
       v = PyStr item /\ raw ∈ column_values toy_listing_data "Item number" /\
       format_item_number raw = Ok item /\ has_decimal_point item = false).
Proof.
  apply (outputs_are_normalised toy_file toy_read_csv toy_to_datetime
           toy_listings toy_orders toy_now empty_state empty_state); run.
Defined.

Lemma no_recent_sale_witness :
  column_values (DataFrame_of_list [] "Sold Item Numbers") "Sold Item Numbers" = [] /\
  column_values (DataFrame_of_list [PyStr "100"] "Unsold Item Numbers") "Unsold Item Numbers"
  = List.map (fun l => PyStr (l_item l))
      (List.filter
         (fun l => positive_quantity (l_available_quantity l)
                   && started_before (toy_now - timedelta_days 60) (l_start_date l))
         [mkListing "100" (PyInt 1) (Some 78624000000000)]).
Proof.
  apply (no_recent_sale toy_file toy_read_csv toy_to_datetime
           (Ok late_listing_data) (Ok late_order_data) toy_now empty_state empty_state
           _ _ late_order_data late_listing_data
           [mkOrder "100" (Some 81215999000000)]); run.
Defined.

Lemma later_run_sold_shrinks_witness :
  (forall v, v ∈ column_values toy_later_sold_df "Sold Item Numbers" ->
             v ∈ column_values toy_sold_df "Sold Item Numbers") /\
  (forall v, v ∈ column_values toy_unsold_df "Unsold Item Numbers" ->
             v ∈ column_values toy_later_unsold_df "Unsold Item Numbers").
Proof.
  apply (later_run_sold_shrinks toy_file toy_read_csv toy_to_datetime
           toy_listings toy_orders toy_now toy_later
           empty_state empty_state empty_state empty_state);
    [run|run|vm_compute; discriminate].
Defined.

Lemma idle_run_changes_nothing_witness :
  fst (script toy_file toy_read_csv toy_to_datetime
         (Some toy_listings) (Some toy_orders) false toy_now empty_state) = Ok () /\
  errors (snd (script toy_file toy_read_csv toy_to_datetime
                 (Some toy_listings) (Some toy_orders) false toy_now empty_state))
  = errors empty_state /\
  forall k,
    stored k (snd (script toy_file toy_read_csv toy_to_datetime
                     (Some toy_listings) (Some toy_orders) false toy_now empty_state))
    = stored k empty_state.
Proof. apply idle_run_changes_nothing. right. right. reflexivity. Defined.

Lemma results_stored_together_witness :
  stored "sold_df"
    (snd (script toy_file toy_read_csv toy_to_datetime
            (Some toy_listings) (Some toy_orders) true toy_now empty_state)) = None <->
  stored "unsold_df"
    (snd (script toy_file toy_read_csv toy_to_datetime
            (Some toy_listings) (Some toy_orders) true toy_now empty_state)) = None.
Proof. apply results_stored_together. split; reflexivity. Defined.

(** The downloads appear with the first run that succeeds, and a run that
    raises afterwards does not take them away. *)
Example downloads_appear_and_stay :
  let first := snd (script toy_file toy_read_csv toy_to_datetime
                      (Some toy_listings) (Some toy_orders) true toy_now empty_state) in
  let second := snd (script toy_file toy_read_csv toy_to_datetime
                       (Some toy_listings) (Some (Ok bad_item_order_data)) true
                       toy_now first) in
  downloads_offered empty_state = false /\
  downloads_offered first = true /\ downloads_offered second = true.
Proof. repeat split; run. Qed.

End Main.
